(** * CSPP Active Fires (NOAA): the granule dispatch pipeline

    A shallow embedding of [dispatcher.py] (the per-granule worker
    [afire_submitter] and the pool driver [afire_dispatcher]) and of
    [cspp_active_fire_noaa.py] ([process_afire_inputs] and [main]).

    Conventions of the embedding.
    - A Python [dict] used as a map is a [gmap]; the scratch tree below the
      work directory is a [gset] of the paths that exist.
    - The collaborators that live outside the two source files (ancillary
      staging, [link_files], the captured launcher of the binary, the HDF5 and
      NetCDF readers, report formatting, [shutil.move], [cleanup], the input
      scanner, ...) are given by an oracle: each call either returns a value
      or raises.  The program's own directory probing, directory creation
      and log writing act on the path set and succeed; what the run
      directory holds after the binary ran is known through the oracle.
    - Library calls whose outcome is fixed by their arguments follow the
      library: a missing dictionary key raises [KeyError], and
      [multiprocessing.Pool] refuses a number of processes below 1.
    - Every call that touches the outside world leaves an [event] in a trace,
      so that "is invoked", "is attempted" and "is never invoked" are
      statements about the trace.
    - Python locals that are read after an exception handler ([rc_exe],
      [rc_problem], [exe_out]) live in the state, so that a handler sees the
      values assigned before the fault. *)

From Stdlib Require Import ZArith List Ascii String Lia.
From stdpp Require Import base option list strings pretty gmap sets sorting.

Open Scope Z_scope.
Open Scope string_scope.

(** ** Python values and library functions used by the program *)

Module Py.

(** Exceptions.  [CsppEnvironment] is the exception class of [utils]; every
    other exception the program can meet is an [OtherException].  Both are
    subclasses of [Exception]. *)
Inductive exn : Type :=
| CsppEnvironment (value : string)
| OtherException (what : string).

Inductive outcome (A : Type) : Type :=
| Ok (a : A)
| Raise (e : exn).
Arguments Ok {A} a.
Arguments Raise {A} e.

Definition is_ok {A} (o : outcome A) : bool :=
  match o with Ok _ => true | Raise _ => false end.

(** Code that threads a state of type [S] and may raise. *)
Definition M (S A : Type) : Type := S -> outcome A * S.

Definition ret {S A} (a : A) : M S A := fun st => (Ok a, st).

Definition bind {S A B} (m : M S A) (k : A -> M S B) : M S B :=
  fun st => match m st with
            | (Ok a, st') => k a st'
            | (Raise e, st') => (Raise e, st')
            end.

Definition raise {S A} (e : exn) : M S A := fun st => (Raise e, st).

Definition get_state {S} : M S S := fun st => (Ok st, st).

(** [try: body except Exception: handler]: the handler runs in the state
    the body had reached when it raised. *)
Definition try_except {S A} (body : M S A) (handler : M S A) : M S A :=
  fun st => match body st with
            | (Ok a, st') => (Ok a, st')
            | (Raise _, st') => handler st'
            end.

Declare Scope py_scope.
Delimit Scope py_scope with py.
Notation "x <- m ;; k" := (bind m (fun x => k))
  (at level 100, m at next level, right associativity) : py_scope.
Notation "m ;; k" := (bind m (fun _ => k))
  (at level 100, right associativity) : py_scope.

(** [str.endswith("/")]. *)
Definition ends_with_sep (a : string) : bool :=
  match String.get (Nat.pred (String.length a)) a with
  | Some c => bool_decide (c = "/"%char)
  | None => false
  end.

(** [str.startswith("/")]. *)
Definition starts_with_sep (b : string) : bool :=
  match b with
  | String c _ => bool_decide (c = "/"%char)
  | EmptyString => false
  end.

(** [os.path.join(a, b)] of [posixpath], for two components. *)
Definition pjoin (a b : string) : string :=
  if starts_with_sep b then b
  else if bool_decide (a = "") || ends_with_sep a then a +:+ b
  else a +:+ "/" +:+ b.

Definition is_sep (c : ascii) : bool := bool_decide (c = "/"%char).
Definition is_dot (c : ascii) : bool := bool_decide (c = "."%char).

Fixpoint takewhile {A} (f : A -> bool) (l : list A) : list A :=
  match l with
  | x :: l' => if f x then x :: takewhile f l' else []
  | [] => []
  end.

Fixpoint dropwhile {A} (f : A -> bool) (l : list A) : list A :=
  match l with
  | x :: l' => if f x then dropwhile f l' else l
  | [] => []
  end.

(** [os.path.dirname(p)]: everything up to the last separator, with the
    trailing separators removed unless the head consists of separators
    only. *)

Definition dirname (p : string) : string :=
  let rhead := dropwhile (fun c => negb (is_sep c)) (rev (list_ascii_of_string p)) in
  if forallb is_sep rhead then string_of_list_ascii (rev rhead)
  else string_of_list_ascii (rev (dropwhile is_sep rhead)).

(** [os.path.splitext(p)[0]]: the extension starts at the last dot of the
    last component, unless that component has only dots before it. *)
Definition splitext_root (p : string) : string :=
  let r := rev (list_ascii_of_string p) in
  match dropwhile (fun c => negb (is_sep c) && negb (is_dot c)) r with
  | c :: rroot =>
      if is_dot c then
        let rname := takewhile (fun c => negb (is_sep c)) rroot in
        if existsb (fun c => negb (is_dot c)) rname
        then string_of_list_ascii (rev rroot)
        else p
      else p
  | [] => p
  end.

(** [s.replace(old, new)] for a non-empty [old]: occurrences are replaced
    from left to right and do not overlap.  [skip] counts the characters of
    the occurrence just replaced that are still to be passed over. *)
Fixpoint replace_go (old new : string) (skip : nat) (s : string) : string :=
  match s with
  | EmptyString => EmptyString
  | String c s' =>
      match skip with
      | S k => replace_go old new k s'
      | O =>
          if String.prefix old s
          then new +:+ replace_go old new (Nat.pred (String.length old)) s'
          else String c (replace_go old new O s')
      end
  end.

Definition replace (old new s : string) : string := replace_go old new O s.

(** [sorted(l)] on strings: the order of [str] is the lexicographic order
    of the code points, which is [String.le]. *)
Definition sorted (l : list string) : list string := merge_sort String.le l.

(** [sorted(list(set(l)))]. *)
Definition sorted_set (l : list string) : list string :=
  sorted (elements (list_to_set l : gset string)).

(** ["{}".format(n)] for a non-negative integer. *)
Definition format_nat (n : nat) : string := pretty n.

End Py.
Export Py.

(** ** dispatcher.py *)

Module Dispatcher.

(** *** Data model *)

(** One entry of [afire_data_dict].  [geo_dt] holds, per geolocation prefix
    (['GITCO'] or ['GMTCO']), the granule start time rendered as the cache
    bucket key [%Y_%m_%d_%j-%Hh]; [AFEDR_file] is [granule_dict['AFEDR']['file']]. *)
Record granule_dict : Type := mk_granule_dict {
  granule_id : string;
  run_dir : string;
  cmd : string;
  creation_dt : string;
  AFEDR_file : string;
  geo_dt : gmap string string
}.

(** The shared options dictionary, with the keys the two files read. *)
Record afire_options : Type := mk_afire_options {
  afire_home_opt : string;
  i_band : bool;
  work_dir : string;
  cache_dir : string;
  ancillary_only : bool;
  cache_window : Z;
  preserve_cache : bool;
  num_cpu : option Z;
  docleanup : bool;
  version : string
}.

(** The argument dictionary of one task. *)
Record task_args : Type := mk_task_args {
  arg_granule_dict : granule_dict;
  arg_afire_home : string;
  arg_afire_options : afire_options
}.

(** One fire pixel: latitude, longitude, brightness temperature,
    confidence, radiative power, in micro-units. *)
Record fire_record : Type := mk_fire_record {
  FP_latitude : Z;
  FP_longitude : Z;
  FP_T : Z;
  FP_confidence : Z;
  FP_power : Z
}.

(** The list [[granule_id, rc_exe, rc_problem, exe_out]] a worker returns. *)
Record result : Type := mk_result {
  res_granule_id : string;
  res_rc_exe : Z;
  res_rc_problem : Z;
  res_exe_out : string
}.

(** *** Collaborators *)

(** What the collaborators of one task do.  [get_lwm] gives [rc_ancil] and
    [lwm_file]; [link_files] stands for building [paths_to_link] and linking
    them; [execute_binary_captured_inject_io] gives the exit status of the
    binary and its captured text; the remaining fields describe the run
    directory after the binary ran. *)
Record oracle : Type := mk_oracle {
  get_lwm : outcome (Z * string);
  link_files : outcome nat;
  execute_binary_captured_inject_io : outcome (Z * string);
  utcnow_isoformat : string;
  path_exists : string -> bool;
  os_remove : string -> outcome unit;
  stamp_attributes : outcome unit;
  fire_count : outcome Z;
  fire_data : outcome (list fire_record);
  open_report : string -> outcome unit;
  write_report : outcome unit;
  glob_outputs : list string;
  shutil_move : string -> outcome unit;
  cleanup : outcome unit
}.

(** *** Observable events *)

Inductive warning : Type :=
| WLwmProblem (gid : string)
| WAncillaryFailed (gid : string)
| WReportProblem (txt : string)
| WAttributeProblem (file : string)
| WMoveProblem (outfile : string)
| WGeneral (gid : string)
| WCpuClamped (requested available : Z)
| WCacheDir (gid : string).

Inductive event : Type :=
| EvProbe (p : string)
| EvMakedirs (p : string)
| EvChdir (p : string)
| EvStage (gid : string)
| EvLink (dir : string)
| EvExec (dir command : string)
| EvWriteLog (logpath text : string)
| EvRemove (p : string)
| EvStamp (file gid history : string)
| EvReadCount (file : string)
| EvReadRecords (file : string)
| EvOpenReport (txt : string)
| EvWriteReport (txt : string) (iband : bool) (nfire : Z) (rows : list fire_record)
| EvMove (outfile dest : string)
| EvCleanup (p : string)
| EvPool (processes : Z)
| EvGetInputs
| EvConstructCmds
| EvCleanCache (dir : string) (window : Z) (first_dt : string)
| EvCreateDir (p : string)
| EvLogError (msg : string)
| EvWarn (w : warning).

Global Instance fire_record_eq_dec : EqDecision fire_record.
Proof. solve_decision. Defined.
Global Instance warning_eq_dec : EqDecision warning.
Proof. solve_decision. Defined.
Global Instance event_eq_dec : EqDecision event.
Proof. solve_decision. Defined.

(** *** The worker's state and its monad *)

Record wstate : Type := mk_wstate {
  fs : gset string;
  cwd : string;
  trace : list event;
  rc_exe : Z;
  rc_problem : Z;
  exe_out : string
}.

Definition W (A : Type) : Type := M wstate A.

Open Scope py_scope.

Definition emit (e : event) : W unit :=
  fun st => (Ok tt, mk_wstate (fs st) (cwd st) (trace st ++ [e])
                              (rc_exe st) (rc_problem st) (exe_out st)).

Definition warn (w : warning) : W unit := emit (EvWarn w).

Definition set_fs (f : gset string) : W unit :=
  fun st => (Ok tt, mk_wstate f (cwd st) (trace st)
                              (rc_exe st) (rc_problem st) (exe_out st)).

Definition set_cwd (d : string) : W unit :=
  fun st => (Ok tt, mk_wstate (fs st) d (trace st)
                              (rc_exe st) (rc_problem st) (exe_out st)).

Definition set_rc_exe (rc : Z) : W unit :=
  fun st => (Ok tt, mk_wstate (fs st) (cwd st) (trace st)
                              rc (rc_problem st) (exe_out st)).

Definition set_rc_problem (rc : Z) : W unit :=
  fun st => (Ok tt, mk_wstate (fs st) (cwd st) (trace st)
                              (rc_exe st) rc (exe_out st)).

Definition set_exe_out (text : string) : W unit :=
  fun st => (Ok tt, mk_wstate (fs st) (cwd st) (trace st)
                              (rc_exe st) (rc_problem st) text).

(** A call to a collaborator: the call is recorded, then the oracle says
    what it does. *)
Definition call {A} (e : event) (o : outcome A) : W A :=
  fun st => (o, mk_wstate (fs st) (cwd st) (trace st ++ [e])
                          (rc_exe st) (rc_problem st) (exe_out st)).

(** [os.getcwd()], [os.chdir(d)], [exists(p)], [os.makedirs(p)] on the
    scratch tree. *)
Definition getcwd : W string := fun st => (Ok (cwd st), st).

Definition chdir (d : string) : W unit := emit (EvChdir d) ;; set_cwd d.

Definition exists_ (p : string) : W bool :=
  emit (EvProbe p) ;;
  st <- get_state ;;
  ret (bool_decide (p ∈ fs st)).

Definition makedirs (p : string) : W unit :=
  emit (EvMakedirs p) ;;
  st <- get_state ;;
  set_fs ({[p]} ∪ fs st).

(** *** afire_submitter: the run directory (lines 71-81) *)

Definition run_dir_name (work_dir base : string) (log_idx : nat) : string :=
  pjoin work_dir (base +:+ "_run_" +:+ format_nat log_idx).

(** The [while True] loop.  [fuel] bounds the number of probes; the loop is
    entered with more fuel than there are paths in the tree, which is
    enough for it to reach its [break] (lemma [create_run_dir_fuel]). *)
Fixpoint create_run_dir (fuel : nat) (work_dir base : string) (log_idx : nat)
  : W string :=
  match fuel with
  | O => raise (OtherException "probe bound reached")
  | S fuel' =>
      let run_dir := run_dir_name work_dir base log_idx in
      found <- exists_ run_dir ;;
      if negb found then makedirs run_dir ;; ret run_dir
      else create_run_dir fuel' work_dir base (S log_idx)
  end.

Definition allocate_run_dir (work_dir base : string) : W string :=
  st <- get_state ;;
  create_run_dir (S (size (fs st))) work_dir base 0.

(** *** afire_submitter: ancillary staging (lines 83-93) *)

Definition stage_ancillary (o : oracle) (gid : string) : W (bool * option string) :=
  try_except
    (r <- call (EvStage gid) (get_lwm o) ;;
     let '(rc_ancil, lwm_file) := r in
     ret (negb (rc_ancil =? 0)%Z, Some lwm_file))
    (warn (WLwmProblem gid) ;; ret (true, None)).

(** *** afire_submitter: running the binary (lines 113-162) *)

Definition run_binary (o : oracle) (dir command : string) : W unit :=
  call (EvLink dir) (link_files o) ;;
  r <- call (EvExec dir command) (execute_binary_captured_inject_io o) ;;
  let '(rc, text) := r in
  set_rc_exe rc ;; set_exe_out text.

Definition write_log (o : oracle) (dir : string) : W unit :=
  st <- get_state ;;
  let logname := dir +:+ "_" +:+ utcnow_isoformat o +:+ ".log" in
  let logpath := pjoin (dirname dir) logname in
  emit (EvWriteLog logpath (exe_out st)) ;;
  set_fs ({[logpath]} ∪ fs st).

(** *** afire_submitter: output repair (lines 164-331) *)

Definition remove_if_exists (o : oracle) (p : string) : W unit :=
  if path_exists o p then call (EvRemove p) (os_remove o p) else ret tt.

(** Opening the text file and the inner [try] around the writes. *)
Definition write_text_file (o : oracle) (txt : string) (iband : bool) (nfire : Z)
    (rows : list fire_record) : W unit :=
  call (EvOpenReport txt) (open_report o txt) ;;
  try_except
    (call (EvWriteReport txt iband nfire rows) (write_report o))
    (set_rc_problem 1 ;; warn (WReportProblem txt)).

(** Stamping the container and reading the fire pixels.  The five data sets
    are read only when the count is positive; [None] stands for the local
    [fire_data] left unbound. *)
Definition stamp_and_extract (o : oracle) (file gid history : string)
  : W (Z * option (list fire_record)) :=
  call (EvStamp file gid history) (stamp_attributes o) ;;
  nfire <- call (EvReadCount file) (fire_count o) ;;
  if (0 <? nfire)%Z
  then rows <- call (EvReadRecords file) (fire_data o) ;; ret (nfire, Some rows)
  else ret (nfire, None).

Definition update_attributes (o : oracle) (opts : afire_options) (gd : granule_dict)
    (dir : string) : W unit :=
  let gid := granule_id gd in
  let old_output_file := pjoin dir (AFEDR_file gd) in
  let output_txt_file := splitext_root old_output_file +:+ ".txt" in
  let history_string := "CSPP Active Fires version: " +:+ version opts in
  remove_if_exists o output_txt_file ;;
  if i_band opts then
    r <- stamp_and_extract o old_output_file gid history_string ;;
    match r with
    | (nfire, Some rows) =>
        let nasa_file := replace "dev" "dev_nasa" output_txt_file in
        remove_if_exists o nasa_file ;;
        write_text_file o output_txt_file true nfire rows
    | (_, None) => ret tt
    end
  else
    r <- stamp_and_extract o old_output_file gid history_string ;;
    match r with
    | (nfire, Some rows) => write_text_file o output_txt_file false nfire rows
    | (_, None) => ret tt
    end.

Definition repair_output (o : oracle) (opts : afire_options) (gd : granule_dict)
    (dir : string) : W unit :=
  try_except
    (update_attributes o opts gd dir)
    (set_rc_problem 1 ;; warn (WAttributeProblem (pjoin dir (AFEDR_file gd)))).

(** *** afire_submitter: relocation (lines 333-347) *)

Fixpoint move_outputs (o : oracle) (dest : string) (outfiles : list string) : W unit :=
  match outfiles with
  | [] => ret tt
  | outfile :: rest =>
      try_except
        (call (EvMove outfile dest) (shutil_move o outfile))
        (set_rc_problem 1 ;; warn (WMoveProblem outfile)) ;;
      move_outputs o dest rest
  end.

(** *** afire_submitter: the body of the outer [try] (lines 47-351) *)

Definition submitter_body (o : oracle) (args : task_args) (current_dir : string)
  : W unit :=
  let gd := arg_granule_dict args in
  let opts := arg_afire_options args in
  let gid := granule_id gd in
  dir <- allocate_run_dir (work_dir opts) (run_dir gd) ;;
  chdir dir ;;
  staged <- stage_ancillary o gid ;;
  let '(failed_ancillary, _) := staged in
  (if ancillary_only opts then
     (if failed_ancillary
      then warn (WAncillaryFailed gid) ;; set_rc_problem 1
      else ret tt) ;;
     chdir current_dir
   else if failed_ancillary then
     warn (WAncillaryFailed gid) ;;
     chdir current_dir ;;
     set_rc_problem 1
   else
     run_binary o dir (cmd gd) ;;
     chdir current_dir ;;
     write_log o dir ;;
     repair_output o opts gd dir ;;
     move_outputs o (work_dir opts) (glob_outputs o)) ;;
  st <- get_state ;;
  if (rc_exe st =? 0)%Z && (rc_problem st =? 0)%Z && docleanup opts
  then call (EvCleanup dir) (cleanup o) ;; set_fs (fs st ∖ {[dir]})
  else ret tt.

(** The worker.  [rc_exe], [rc_problem] and [exe_out] are bound (lines
    57-59) and the current directory is read (line 67) before the first
    call that can raise, so the handler and the [return] always find them.
    The worker starts in the tree [fs0] with current directory [cwd0]; it
    gives back its result, or the exception that left it, together with the
    final state. *)
Definition afire_submitter (o : oracle) (args : task_args)
    (fs0 : gset string) (cwd0 : string) : outcome result * wstate :=
  let gid := granule_id (arg_granule_dict args) in
  let st0 := mk_wstate fs0 cwd0 [] 0 0 ("Finished the Active Fires granule " +:+ gid) in
  let current_dir := cwd0 in
  match try_except (submitter_body o args current_dir)
                   (warn (WGeneral gid) ;; chdir current_dir) st0 with
  | (Ok _, st) => (Ok (mk_result gid (rc_exe st) (rc_problem st) (exe_out st)), st)
  | (Raise e, st) => (Raise e, st)
  end.

(** *** afire_dispatcher *)

(** The state of the driving process: the scratch tree, the current
    directory and the events so far. *)
Record pstate : Type := mk_pstate {
  p_fs : gset string;
  p_cwd : string;
  p_trace : list event
}.

Definition plog (e : event) : M pstate unit :=
  fun ps => (Ok tt, mk_pstate (p_fs ps) (p_cwd ps) (p_trace ps ++ [e])).

Definition pcall {A} (e : event) (o : outcome A) : M pstate A :=
  fun ps => (o, mk_pstate (p_fs ps) (p_cwd ps) (p_trace ps ++ [e])).

(** Lines 369-375: one argument dictionary per key, in sorted key order. *)
Definition build_tasks (afire_home : string)
    (afire_data_dict : gmap string granule_dict) (opts : afire_options)
  : list task_args :=
  omap (fun gid => (fun gd => mk_task_args gd afire_home opts) <$> afire_data_dict !! gid)
       (sorted (elements (dom afire_data_dict))).

(** Lines 378-394: [cpus_to_use], and whether the warning is logged. *)
Definition size_pool (requested_cpu_count : option Z) (cpu_count : Z)
  : Z * list warning :=
  match requested_cpu_count with
  | Some requested =>
      if (requested >? cpu_count)%Z
      then (cpu_count, [WCpuClamped requested cpu_count])
      else (requested, [])
  | None => (cpu_count, [])
  end.

Fixpoint warn_all (ws : list warning) : M pstate unit :=
  match ws with
  | [] => ret tt
  | w :: rest => plog (EvWarn w) ;; warn_all rest
  end.

(** One task run by the pool: the worker's events join the trace of the
    process, and an exception that left the worker is raised again by
    [get]. *)
Definition run_task (collab : granule_dict -> oracle) (args : task_args)
  : M pstate result :=
  fun ps =>
    match afire_submitter (collab (arg_granule_dict args)) args (p_fs ps) (p_cwd ps) with
    | (r, st) => (r, mk_pstate (fs st) (cwd st) (p_trace ps ++ trace st))
    end.

(** [pool.map_async(afire_submitter, afire_tasks).get(timeout)]: the list of
    the workers' results, in the order of the tasks.  The tasks are run one
    after the other on the shared tree. *)
Fixpoint pool_map (collab : granule_dict -> oracle) (tasks : list task_args)
  : M pstate (list result) :=
  match tasks with
  | [] => ret []
  | args :: rest =>
      r <- run_task collab args ;;
      rs <- pool_map collab rest ;;
      ret (r :: rs)
  end.

(** Lines 419-430: the two status dictionaries. *)
Definition collect_results (result_list : list result)
  : gmap string Z * gmap string Z :=
  foldl (fun dicts r =>
           (<[res_granule_id r := res_rc_exe r]> (fst dicts),
            <[res_granule_id r := res_rc_problem r]> (snd dicts)))
        (∅, ∅) result_list.

(** [multiprocessing.Pool(processes)]: the constructor refuses a number of
    processes below 1 with [ValueError]. *)
Definition pool_create (processes : Z) : M pstate unit :=
  if (processes <? 1)%Z then raise (OtherException "ValueError")
  else plog (EvPool processes).

(** [multiprocessing.cpu_count()] is a positive number. *)
Definition afire_dispatcher (collab : granule_dict -> oracle) (cpu_count : positive)
    (afire_home : string) (afire_data_dict : gmap string granule_dict)
    (opts : afire_options) : M pstate (gmap string Z * gmap string Z) :=
  let afire_tasks := build_tasks afire_home afire_data_dict opts in
  let '(cpus_to_use, warnings) := size_pool (num_cpu opts) (Z.pos cpu_count) in
  warn_all warnings ;;
  pool_create cpus_to_use ;;
  result_list <- pool_map collab afire_tasks ;;
  ret (collect_results result_list).

End Dispatcher.

(** ** cspp_active_fire_noaa.py *)

Module Driver.
Import Dispatcher.
Open Scope py_scope.

(** What [argument_parser] returns: the parsed options, the work directory,
    the cleanup flag and the version string. *)
Record cli_args : Type := mk_cli_args {
  inputs : list string;
  arg_i_band : bool;
  arg_work_dir : string;
  arg_cache_dir : option string;
  arg_ancillary_only : bool;
  arg_cache_window : Z;
  arg_preserve_cache : bool;
  arg_num_cpu : option Z;
  parsed_work_dir : string;
  parsed_docleanup : bool;
  cspp_afire_version : string
}.

(** The surroundings of the driver: the helpers of [utils] and
    [active_fire_interface], the machine and the collaborators of every
    task.  [check_and_convert_env_var] and [check_and_convert_path] return
    the converted path or raise; [create_dir] returns the directory or
    [None]. *)
Record environment : Type := mk_environment {
  check_and_convert_env_var : string -> outcome string;
  check_and_convert_path : string -> outcome string;
  abspath : string -> string;
  setup_cache_dir : option string -> string -> string -> string;
  get_afire_inputs : outcome (gmap string granule_dict * list string);
  construct_cmd_invocations :
    gmap string granule_dict -> outcome (gmap string granule_dict);
  clean_cache : string -> Z -> string -> outcome unit;
  create_dir : string -> outcome (option string);
  cleanup_unaggregated : string -> outcome unit;
  cpu_count : positive;
  collaborators : granule_dict -> oracle
}.

(** The four diagnostic lists. *)
Record runs : Type := mk_runs {
  attempted_runs : list string;
  successful_runs : list string;
  crashed_runs : list string;
  problem_runs : list string
}.

(** [d[k]] on a dictionary: the value, or [KeyError]. *)
Definition getitem {S V} (d : gmap string V) (k : string) : M S V :=
  match d !! k with
  | Some v => ret v
  | None => raise (OtherException "KeyError")
  end.

(** Lines 105-116: the loop that fills the four lists. *)
Fixpoint populate {S} (granule_id_list : list string)
    (rc_exe_dict rc_problem_dict : gmap string Z) (acc : runs) : M S runs :=
  match granule_id_list with
  | [] => ret acc
  | gid :: rest =>
      let acc := mk_runs (attempted_runs acc ++ [gid]) (successful_runs acc)
                         (crashed_runs acc) (problem_runs acc) in
      rc <- getitem rc_exe_dict gid ;;
      acc <- (if (rc =? 0)%Z then
                rcp <- getitem rc_problem_dict gid ;;
                if (rcp =? 0)%Z
                then ret (mk_runs (attempted_runs acc) (successful_runs acc ++ [gid])
                                  (crashed_runs acc) (problem_runs acc))
                else ret acc
              else ret (mk_runs (attempted_runs acc) (successful_runs acc)
                                (crashed_runs acc ++ [gid]) (problem_runs acc))) ;;
      rcp <- getitem rc_problem_dict gid ;;
      let acc := if negb (rcp =? 0)%Z
                 then mk_runs (attempted_runs acc) (successful_runs acc)
                              (crashed_runs acc) (problem_runs acc ++ [gid])
                 else acc in
      populate rest rc_exe_dict rc_problem_dict acc
  end.

(** Lines 105-123: the lists are filled, then sorted and de-duplicated. *)
Definition summarize {S} (granule_id_list : list string)
    (rc_exe_dict rc_problem_dict : gmap string Z) : M S runs :=
  acc <- populate granule_id_list rc_exe_dict rc_problem_dict (mk_runs [] [] [] []) ;;
  ret (mk_runs (sorted_set (attempted_runs acc)) (sorted_set (successful_runs acc))
               (sorted_set (crashed_runs acc)) (sorted_set (problem_runs acc))).

(** [afire_data_dict[granule_id][geo_prefix]['dt']]. *)
Definition geo_time {S} (afire_data_dict : gmap string granule_dict)
    (geo_prefix gid : string) : M S string :=
  gd <- getitem afire_data_dict gid ;;
  getitem (geo_dt gd) geo_prefix.

Fixpoint log_input_files (afire_data_dict : gmap string granule_dict)
    (geo_prefix : string) (granule_id_list : list string) : M pstate unit :=
  match granule_id_list with
  | [] => ret tt
  | gid :: rest =>
      geo_time afire_data_dict geo_prefix gid ;;
      log_input_files afire_data_dict geo_prefix rest
  end.

(** Lines 84-90: one cache directory per granule. *)
Fixpoint create_cache_dirs (env : environment) (opts : afire_options)
    (afire_data_dict : gmap string granule_dict) (geo_prefix : string)
    (granule_id_list : list string) : M pstate unit :=
  match granule_id_list with
  | [] => ret tt
  | gid :: rest =>
      anc_dir <- geo_time afire_data_dict geo_prefix gid ;;
      let lwm_dir := pjoin (cache_dir opts) anc_dir in
      made <- pcall (EvCreateDir lwm_dir) (create_dir env lwm_dir) ;;
      (if made is None then plog (EvWarn (WCacheDir gid)) else ret tt) ;;
      create_cache_dirs env opts afire_data_dict geo_prefix rest
  end.

Definition process_afire_inputs (env : environment) (work_dir_arg : string)
    (opts : afire_options) : M pstate runs :=
  let afire_home := afire_home_opt opts in
  let geo_prefix := if i_band opts then "GITCO" else "GMTCO" in
  found <- pcall EvGetInputs (get_afire_inputs env) ;;
  let '(afire_data_dict, granule_id_list) := found in
  if bool_decide (afire_data_dict = ∅) || bool_decide (granule_id_list = [])
  then ret (mk_runs [] [] [] [])
  else
    afire_data_dict <- pcall EvConstructCmds
                             (construct_cmd_invocations env afire_data_dict) ;;
    log_input_files afire_data_dict geo_prefix granule_id_list ;;
    (if negb (preserve_cache opts) then
       first_dt <- (match granule_id_list with
                    | gid :: _ => geo_time afire_data_dict geo_prefix gid
                    | [] => raise (OtherException "IndexError")
                    end) ;;
       pcall (EvCleanCache (cache_dir opts) (cache_window opts) first_dt)
             (clean_cache env (cache_dir opts) (cache_window opts) first_dt)
     else ret tt) ;;
    create_cache_dirs env opts afire_data_dict geo_prefix granule_id_list ;;
    dicts <- afire_dispatcher (collaborators env) (cpu_count env)
                              afire_home afire_data_dict opts ;;
    let '(rc_exe_dict, rc_problem_dict) := dicts in
    (if docleanup opts then
       let unagg_inputs_dir := pjoin work_dir_arg "unaggregated_inputs" in
       pcall (EvCleanup unagg_inputs_dir) (cleanup_unaggregated env unagg_inputs_dir)
     else ret tt) ;;
    summarize granule_id_list rc_exe_dict rc_problem_dict.

(** Lines 136-147: the four checks, in order. *)
Definition check_environment (env : environment) (work_dir_arg : string)
  : outcome (string * string) :=
  match check_and_convert_env_var env "CSPP_ACTIVE_FIRE_HOME" with
  | Raise e => Raise e
  | Ok afire_home =>
      match check_and_convert_env_var env "CSPP_ACTIVE_FIRE_STATIC_DIR" with
      | Raise e => Raise e
      | Ok afire_ancil_path =>
          match check_and_convert_path env (pjoin afire_home "static_ancillary") with
          | Raise e => Raise e
          | Ok _ =>
              match check_and_convert_path env work_dir_arg with
              | Raise e => Raise e
              | Ok _ => Ok (afire_home, afire_ancil_path)
              end
          end
      end
  end.

(** Lines 149-162. *)
Definition build_options (env : environment) (args : cli_args) (afire_home : string)
  : afire_options :=
  let wd := abspath env (arg_work_dir args) in
  mk_afire_options (abspath env afire_home) (arg_i_band args) wd
                   (setup_cache_dir env (arg_cache_dir args) wd "CSPP_ACTIVE_FIRE_CACHE_DIR")
                   (arg_ancillary_only args) (arg_cache_window args)
                   (arg_preserve_cache args) (arg_num_cpu args)
                   (parsed_docleanup args) (cspp_afire_version args).

(** [main]: the value it returns, or the exception that leaves it, and the
    final state of the process. *)
Definition main (env : environment) (args : cli_args) : M pstate Z :=
  let work_dir_arg := parsed_work_dir args in
  match check_environment env work_dir_arg with
  | Raise (CsppEnvironment value) =>
      plog (EvLogError value) ;;
      plog (EvLogError "Installation error, Make sure all software components were installed.") ;;
      ret 2%Z
  | Raise e => raise e
  | Ok (afire_home, _) =>
      let opts := build_options env args afire_home in
      try_except
        (process_afire_inputs env work_dir_arg opts ;; ret 0%Z)
        (plog (EvLogError "traceback") ;; ret 1%Z)
  end.

End Driver.

(** * Properties *)

Import Dispatcher Driver.
Open Scope py_scope.

(** ** The run-directory allocator *)

Section Allocator.
Variables (work_dir_ base : string).

Local Abbreviation name := (run_dir_name work_dir_ base).

(** The probes made when the directories of index [idx], ..., [idx + n - 1]
    are looked at in turn. *)
Definition probes (idx n : nat) : list event :=
  (fun i => EvProbe (name i)) <$> seq idx n.

Lemma run_dir_name_inj (i j : nat) : name i = name j -> i = j.
Proof.
  unfold run_dir_name, pjoin, format_nat.
  assert (Hp : forall k : nat, starts_with_sep (base +:+ "_run_" +:+ pretty k)
                             = starts_with_sep (base +:+ "_run_")).
  { intros k. by destruct base. }
  rewrite !Hp.
  destruct (starts_with_sep (base +:+ "_run_"));
    [| destruct (bool_decide (work_dir_ = "") || ends_with_sep work_dir_)];
    intros H; repeat (apply (inj (String.app _)) in H); by apply (inj pretty) in H.
Qed.

Global Instance run_dir_name_Inj : Inj (=) (=) name.
Proof. intros i j. apply run_dir_name_inj. Qed.

(** The state the loop leaves when it stops at index [n], having started
    at [idx]. *)
Definition allocated (st : wstate) (idx n : nat) : wstate :=
  mk_wstate ({[name n]} ∪ fs st) (cwd st)
            (trace st ++ probes idx (S n - idx) ++ [EvMakedirs (name n)])
            (rc_exe st) (rc_problem st) (exe_out st).

Lemma create_run_dir_stops (n : nat) : forall (fuel idx : nat) (st : wstate),
  (idx <= n)%nat -> (n - idx < fuel)%nat ->
  (forall i, (idx <= i < n)%nat -> name i ∈ fs st) ->
  name n ∉ fs st ->
  create_run_dir fuel work_dir_ base idx st = (Ok (name n), allocated st idx n).
Proof.
  induction fuel as [|fuel IH]; intros idx st Hle Hfuel Hin Hout; [lia|].
  destruct (decide (idx = n)) as [->|Hne].
  - simpl. unfold bind, exists_, makedirs, bind, emit, get_state, ret, set_fs. simpl.
    rewrite bool_decide_eq_false_2 by done. simpl.
    unfold allocated, probes. replace (S n - n)%nat with 1%nat by lia. simpl.
    by rewrite <- app_assoc.
  - simpl. unfold bind at 1, exists_, bind, emit, get_state, ret. simpl.
    rewrite bool_decide_eq_true_2 by (apply Hin; lia). simpl.
    rewrite IH; [|lia|lia| |done].
    + unfold allocated, probes. simpl.
      replace (S n - idx)%nat with (S (S n - S idx)) by lia. simpl.
      by rewrite <- app_assoc.
    + simpl. intros i Hi. apply Hin. lia.
Qed.

(** A first free index exists below any bound that the tree cannot fill. *)
Lemma first_free (f : gset string) (n : nat) :
  (exists k, (k < n)%nat /\ (name k ∉ f) /\ forall i, (i < k)%nat -> name i ∈ f)
  \/ (forall i, (i < n)%nat -> name i ∈ f).
Proof.
  induction n as [|n [IH|IH]].
  - right. intros i Hi. lia.
  - left. destruct IH as (k & Hk & Hout & Hin). exists k. split; [lia|done].
  - destruct (decide (name n ∈ f)) as [Hn|Hn].
    + right. intros i Hi. destruct (decide (i = n)) as [->|]; [done|]. apply IH. lia.
    + left. exists n. split; [lia|]. split; [done|]. done.
Qed.

Lemma occupied_le_size (f : gset string) (n : nat) :
  (forall i, (i < n)%nat -> name i ∈ f) -> (n <= (size f))%nat.
Proof.
  intros Hin.
  assert (Hnd : NoDup (name <$> seq 0 n)).
  { apply (NoDup_fmap_2 _), NoDup_seq. }
  assert (Hlen : length (name <$> seq 0 n) = n) by (by rewrite length_fmap, length_seq).
  rewrite <- Hlen at 1.
  rewrite <- (size_list_to_set (C := gset string)) by done.
  apply subseteq_size. intros x Hx.
  apply elem_of_list_to_set, list_elem_of_fmap in Hx as (i & -> & Hi).
  apply elem_of_seq in Hi. apply Hin. lia.
Qed.

(** The loop reaches its [break]: the fuel it is given is enough. *)
Lemma create_run_dir_fuel (st : wstate) :
  exists n, (forall i, (i < n)%nat -> name i ∈ fs st) /\ (name n ∉ fs st) /\
    allocate_run_dir work_dir_ base st = (Ok (name n), allocated st 0 n).
Proof.
  destruct (first_free (fs st) (S (size (fs st)))) as [(k & Hk & Hout & Hin)|Hall].
  - exists k. split; [done|]. split; [done|].
    unfold allocate_run_dir, bind, get_state. cbv beta iota.
    apply create_run_dir_stops; [lia|lia| |done].
    intros i Hi. apply Hin. lia.
  - apply occupied_le_size in Hall. lia.
Qed.

End Allocator.

(** ** The steps of the worker, as state transformers *)

(** The calls of the repair and relocation steps that raise. *)
Definition post_fault (o : oracle) (e : event) : bool :=
  match e with
  | EvRemove p => negb (is_ok (os_remove o p))
  | EvStamp _ _ _ => negb (is_ok (stamp_attributes o))
  | EvReadCount _ => negb (is_ok (fire_count o))
  | EvReadRecords _ => negb (is_ok (fire_data o))
  | EvOpenReport p => negb (is_ok (open_report o p))
  | EvWriteReport _ _ _ _ => negb (is_ok (write_report o))
  | EvMove f _ => negb (is_ok (shutil_move o f))
  | _ => false
  end.

(** The events that open or write the text report. *)
Definition is_report_event (e : event) : bool :=
  match e with
  | EvOpenReport _ | EvWriteReport _ _ _ _ => true
  | _ => false
  end.

Definition is_exec_event (e : event) : bool :=
  match e with
  | EvExec _ _ => true
  | _ => false
  end.

Definition blank : wstate := mk_wstate ∅ "" [] 0 0 "".

(** The events of the repair step, read off a run that starts with an empty
    trace. *)
Definition repair_events (o : oracle) (opts : afire_options) (gd : granule_dict)
    (dir : string) : list event :=
  trace (snd (repair_output o opts gd dir blank)).

Ltac run_monad :=
  unfold try_except, bind, call, ret, raise, set_rc_problem, set_rc_exe, set_exe_out,
    set_fs, set_cwd, warn, emit, get_state, getcwd;
  cbn [fs cwd trace rc_exe rc_problem exe_out fst snd].

Ltac run_repair :=
  unfold repair_output, update_attributes, remove_if_exists, stamp_and_extract,
    write_text_file;
  run_monad.

Ltac run_worker :=
  unfold run_binary, write_log, stage_ancillary, chdir;
  run_monad.

Ltac case_on t :=
  first [ match goal with H : t = _ |- _ => rewrite H end
        | destruct t eqn:? ].

Ltac case_unit t :=
  first [ match goal with H : t = _ |- _ => rewrite H end
        | destruct t as [[]|] eqn:? ].

Ltac oracle_case :=
  match goal with
  | |- context [path_exists ?o ?p] => case_on (path_exists o p)
  | |- context [os_remove ?o ?p] => case_unit (os_remove o p)
  | |- context [open_report ?o ?p] => case_unit (open_report o p)
  | |- context [write_report ?o] => case_unit (write_report o)
  | |- context [stamp_attributes ?o] => case_unit (stamp_attributes o)
  | |- context [shutil_move ?o ?f] => case_unit (shutil_move o f)
  | |- context [fire_data ?o] => case_on (fire_data o)
  | |- context [fire_count ?o] => case_on (fire_count o)
  | |- context [(0 <? ?n)%Z] => case_on (0 <? n)%Z
  | |- context [i_band ?opts] => case_on (i_band opts)
  end.

Ltac reduce_worker :=
  cbn [fs cwd trace rc_exe rc_problem exe_out fst snd blank
       existsb forallb post_fault is_report_event is_exec_event
       is_ok negb orb andb app];
  change (0 =? 0)%Z with true;
  change (1 =? 0)%Z with false;
  cbn [negb orb andb].

Ltac split_cases :=
  repeat (first [ progress reduce_worker
                | progress rewrite <- ?app_assoc
                | oracle_case ]).

Lemma repair_output_frame (o : oracle) (opts : afire_options) (gd : granule_dict)
    (dir : string) (st : wstate) :
  repair_output o opts gd dir st =
    (Ok tt,
     mk_wstate (fs st) (cwd st) (trace st ++ repair_events o opts gd dir) (rc_exe st)
               (if existsb (post_fault o) (repair_events o opts gd dir)
                then 1 else rc_problem st)
               (exe_out st)).
Proof.
  unfold repair_events. run_repair. split_cases; reflexivity.
Qed.

(** The events of the relocation loop. *)
Fixpoint move_events (o : oracle) (dest : string) (outfiles : list string) : list event :=
  match outfiles with
  | [] => []
  | outfile :: rest =>
      EvMove outfile dest ::
      (if is_ok (shutil_move o outfile) then [] else [EvWarn (WMoveProblem outfile)])
      ++ move_events o dest rest
  end.

Lemma move_outputs_frame (o : oracle) (dest : string) (outfiles : list string) :
  forall st : wstate,
  move_outputs o dest outfiles st =
    (Ok tt,
     mk_wstate (fs st) (cwd st) (trace st ++ move_events o dest outfiles) (rc_exe st)
               (if existsb (post_fault o) (move_events o dest outfiles)
                then 1 else rc_problem st)
               (exe_out st)).
Proof.
  induction outfiles as [|outfile rest IH]; intros st.
  - destruct st. simpl. by rewrite app_nil_r.
  - cbn [move_outputs move_events]. unfold bind at 1. run_monad.
    destruct (shutil_move o outfile) as [[]|] eqn:Hmv; rewrite IH;
      reduce_worker; rewrite ?Hmv; reduce_worker; rewrite <- ?app_assoc;
      cbn [app]; try reflexivity.
    by destruct (existsb (post_fault o) (move_events o dest rest)).
Qed.

(** ** The worker in closed form *)

Definition finished (gid : string) : string :=
  "Finished the Active Fires granule " +:+ gid.

Definition staging_failed (o : oracle) : bool :=
  match get_lwm o with
  | Ok (rc_ancil, _) => negb (rc_ancil =? 0)%Z
  | Raise _ => true
  end.

Definition stage_events (o : oracle) (gid : string) : list event :=
  EvStage gid :: (if is_ok (get_lwm o) then [] else [EvWarn (WLwmProblem gid)]).

Definition cleanup_events (o : oracle) (opts : afire_options) (gid dir cwd0 : string)
    (rc p : Z) : list event :=
  if (rc =? 0)%Z && (p =? 0)%Z && docleanup opts
  then EvCleanup dir ::
       (if is_ok (cleanup o) then [] else [EvWarn (WGeneral gid); EvChdir cwd0])
  else [].

Definition log_path (o : oracle) (dir : string) : string :=
  pjoin (dirname dir) (dir +:+ "_" +:+ utcnow_isoformat o +:+ ".log").

(** The events of repair and relocation. *)
Definition post_events (o : oracle) (opts : afire_options) (gd : granule_dict)
    (dir : string) : list event :=
  repair_events o opts gd dir ++ move_events o (work_dir opts) (glob_outputs o).

Record verdict : Type := mk_verdict {
  v_rc_exe : Z;
  v_rc_problem : Z;
  v_exe_out : string;
  v_events : list event
}.

(** What a worker returns and does once its run directory [dir] exists. *)
Definition worker_summary (o : oracle) (args : task_args) (cwd0 dir : string) : verdict :=
  let gd := arg_granule_dict args in
  let opts := arg_afire_options args in
  let gid := granule_id gd in
  let staged := EvChdir dir :: stage_events o gid in
  if staging_failed o then
    mk_verdict 0 1 (finished gid)
               (staged ++ [EvWarn (WAncillaryFailed gid); EvChdir cwd0])
  else if ancillary_only opts then
    mk_verdict 0 0 (finished gid)
               (staged ++ EvChdir cwd0 :: cleanup_events o opts gid dir cwd0 0 0)
  else
    match link_files o with
    | Raise _ =>
        mk_verdict 0 0 (finished gid)
                   (staged ++ [EvLink dir; EvWarn (WGeneral gid); EvChdir cwd0])
    | Ok _ =>
        match execute_binary_captured_inject_io o with
        | Raise _ =>
            mk_verdict 0 0 (finished gid)
                       (staged ++ [EvLink dir; EvExec dir (cmd gd);
                                   EvWarn (WGeneral gid); EvChdir cwd0])
        | Ok (rc, text) =>
            let post := post_events o opts gd dir in
            let p := if existsb (post_fault o) post then 1 else 0 in
            mk_verdict rc p text
                       (staged ++ [EvLink dir; EvExec dir (cmd gd); EvChdir cwd0;
                                   EvWriteLog (log_path o dir) text]
                               ++ post ++ cleanup_events o opts gid dir cwd0 rc p)
        end
    end.

Lemma afire_submitter_summary (o : oracle) (args : task_args) (fs0 : gset string)
    (cwd0 : string) :
  let gd := arg_granule_dict args in
  let opts := arg_afire_options args in
  exists n : nat,
    (forall i, (i < n)%nat -> run_dir_name (work_dir opts) (run_dir gd) i ∈ fs0) /\
    (run_dir_name (work_dir opts) (run_dir gd) n ∉ fs0) /\
    let dir := run_dir_name (work_dir opts) (run_dir gd) n in
    let v := worker_summary o args cwd0 dir in
    fst (afire_submitter o args fs0 cwd0)
      = Ok (mk_result (granule_id gd) (v_rc_exe v) (v_rc_problem v) (v_exe_out v)) /\
    trace (snd (afire_submitter o args fs0 cwd0))
      = (probes (work_dir opts) (run_dir gd) 0 (S n) ++ EvMakedirs dir :: v_events v)%list.
Proof.
  intros gd opts.
  set (st0 := mk_wstate fs0 cwd0 [] 0 0 (finished (granule_id gd))).
  destruct (create_run_dir_fuel (work_dir opts) (run_dir gd) st0)
    as (n & Hin & Hout & Halloc).
  exists n. split; [exact Hin|]. split; [exact Hout|].
  unfold afire_submitter, submitter_body, try_except.
  fold gd opts. fold (finished (granule_id gd)). fold st0.
  run_worker. rewrite Halloc. unfold allocated.
  unfold worker_summary, staging_failed, stage_events, cleanup_events, post_events,
    log_path.
  fold gd opts.
  replace (S n - 0)%nat with (S n) by lia.
  subst st0. reduce_worker.
  destruct (get_lwm o) as [[rc_ancil lwm_file]|] eqn:Hlwm; reduce_worker;
    [destruct (rc_ancil =? 0)%Z eqn:Hrc; reduce_worker|];
    destruct (ancillary_only opts) eqn:Hanc; reduce_worker;
    try (destruct (docleanup opts) eqn:Hclean; reduce_worker;
         [destruct (cleanup o) as [[]|] eqn:Hcl; reduce_worker|]);
    rewrite <- ?app_assoc; cbn [app]; try (split; reflexivity).
  all: destruct (link_files o) eqn:Hlink; reduce_worker;
    [|rewrite <- ?app_assoc; cbn [app]; split; reflexivity].
  all: destruct (execute_binary_captured_inject_io o) as [[rc text]|] eqn:Hexec;
    reduce_worker; [|rewrite <- ?app_assoc; cbn [app]; split; reflexivity].
  all: rewrite repair_output_frame; reduce_worker;
    rewrite move_outputs_frame; reduce_worker;
    rewrite existsb_app;
    destruct (existsb (post_fault o) (repair_events o opts gd _));
    destruct (existsb (post_fault o) (move_events o (work_dir opts) (glob_outputs o)));
    reduce_worker; destruct (rc =? 0)%Z; reduce_worker;
    try (destruct (cleanup o) as [[]|] eqn:Hcl; reduce_worker);
    rewrite <- ?app_assoc; cbn [app]; rewrite <- ?app_assoc; rewrite ?app_nil_r;
    split; reflexivity.
Qed.

(** ** Events of a given kind in the pieces of a worker's trace *)

Lemma existsb_false_elem {A} (P : A -> bool) (l : list A) :
  existsb P l = false <-> forall x, x ∈ l -> P x = false.
Proof.
  induction l as [|a l IH]; simpl.
  - split; [|done]. intros _ x Hx. by apply elem_of_nil in Hx.
  - rewrite orb_false_iff, IH. split.
    + intros [Ha Hl] x Hx. apply elem_of_cons in Hx as [->|Hx]; auto.
    + intros H. split; [apply H; left|intros x Hx; apply H; by right].
Qed.

Lemma existsb_true_elem {A} (P : A -> bool) (l : list A) :
  existsb P l = true <-> exists x, x ∈ l /\ P x = true.
Proof.
  rewrite existsb_exists. split; intros (x & Hx & HP); exists x; split; try done.
  - by apply list_elem_of_In.
  - by apply list_elem_of_In.
Qed.

Lemma existsb_probes (P : event -> bool) (wd b : string) (idx n : nat) :
  (forall p, P (EvProbe p) = false) -> existsb P (probes wd b idx n) = false.
Proof.
  intros HP. apply existsb_false_elem. intros e He.
  unfold probes in He. apply list_elem_of_fmap in He as (i & -> & _). apply HP.
Qed.

Lemma existsb_move_events (P : event -> bool) (o : oracle) (dest : string)
    (outfiles : list string) :
  (forall f d, P (EvMove f d) = false) -> (forall w, P (EvWarn w) = false) ->
  existsb P (move_events o dest outfiles) = false.
Proof.
  intros Hm Hw. induction outfiles as [|f rest IH]; [done|].
  cbn [move_events existsb]. rewrite Hm, existsb_app, IH.
  destruct (is_ok (shutil_move o f)); cbn [existsb]; by rewrite ?Hw.
Qed.


Lemma existsb_cleanup_events (P : event -> bool) (o : oracle) (opts : afire_options)
    (gid dir cwd0 : string) (rc p : Z) :
  (forall d, P (EvCleanup d) = false) -> (forall w, P (EvWarn w) = false) ->
  (forall d, P (EvChdir d) = false) ->
  existsb P (cleanup_events o opts gid dir cwd0 rc p) = false.
Proof.
  intros Hc Hw Hd. unfold cleanup_events.
  destruct ((rc =? 0)%Z && (p =? 0)%Z && docleanup opts); [|done].
  destruct (is_ok (cleanup o)); cbn [existsb]; by rewrite ?Hc, ?Hw, ?Hd.
Qed.

Lemma repair_events_no_exec (o : oracle) (opts : afire_options) (gd : granule_dict)
    (dir : string) :
  existsb is_exec_event (repair_events o opts gd dir) = false.
Proof. unfold repair_events. run_repair. split_cases; reflexivity. Qed.

(** A container that reports no fire pixel leads to no text report. *)
Lemma repair_events_no_report (o : oracle) (opts : afire_options) (gd : granule_dict)
    (dir : string) (nfire : Z) :
  fire_count o = Ok nfire -> (nfire <= 0)%Z ->
  existsb is_report_event (repair_events o opts gd dir) = false.
Proof.
  intros Hcount Hle. assert (Hpos : (0 <? nfire)%Z = false) by lia.
  unfold repair_events. run_repair. split_cases; reflexivity.
Qed.




(** ** The worker: what is in its trace *)

Section WorkerTrace.
Variables (o : oracle) (args : task_args) (fs0 : gset string) (cwd0 : string).

Local Abbreviation gd := (arg_granule_dict args).
Local Abbreviation opts := (arg_afire_options args).
Local Abbreviation run := (afire_submitter o args fs0 cwd0).

(** The worker always returns: no exception leaves it. *)
Lemma afire_submitter_returns :
  exists r, fst run = Ok r /\ res_granule_id r = granule_id gd.
Proof.
  destruct (afire_submitter_summary o args fs0 cwd0) as (n & _ & _ & Hres & _).
  eexists. split; [exact Hres|reflexivity].
Qed.

(** The binary is launched exactly when staging succeeded, the run is not
    ancillary-only and the inputs were linked. *)
Lemma exec_event_iff :
  existsb is_exec_event (trace (snd run))
  = negb (staging_failed o) && negb (ancillary_only opts) && is_ok (link_files o).
Proof.
  destruct (afire_submitter_summary o args fs0 cwd0) as (n & _ & _ & _ & Htr).
  rewrite Htr. rewrite existsb_app, existsb_probes by (intros; reflexivity).
  unfold worker_summary, stage_events.
  destruct (staging_failed o); cbn [negb andb orb existsb is_exec_event v_events app].
  { rewrite existsb_app. by destruct (is_ok (get_lwm o)). }
  destruct (ancillary_only opts); cbn [negb andb orb existsb is_exec_event v_events app].
  { rewrite existsb_app. cbn [existsb is_exec_event orb].
    rewrite existsb_cleanup_events by (intros; reflexivity). by destruct (is_ok (get_lwm o)). }
  destruct (link_files o); cbn [is_ok].
  - destruct (execute_binary_captured_inject_io o) as [[rc text]|];
      cbn [v_events existsb is_exec_event orb]; rewrite !existsb_app;
      cbn [existsb is_exec_event orb]; rewrite ?orb_true_r; reflexivity.
  - cbn [v_events existsb is_exec_event orb]. rewrite existsb_app.
    by destruct (is_ok (get_lwm o)).
Qed.

Lemma exec_event_elem :
  (exists d c, EvExec d c ∈ trace (snd run)) <->
  staging_failed o = false /\ ancillary_only opts = false /\ is_ok (link_files o) = true.
Proof.
  rewrite <- !negb_true_iff, <- !andb_true_iff, andb_assoc, <- exec_event_iff.
  rewrite existsb_true_elem. split.
  - intros (d & c & H). by exists (EvExec d c).
  - intros ([] & H & Hx); try discriminate. eauto.
Qed.

(** Once the binary has returned, the result carries its exit status and
    its text, the problem status is raised exactly by a fault of repair or
    relocation, and the events of both steps are in the trace. *)
Lemma executed_summary (rc : Z) (text : string) :
  (exists d c, EvExec d c ∈ trace (snd run)) ->
  execute_binary_captured_inject_io o = Ok (rc, text) ->
  exists dir pre post,
    fst run = Ok (mk_result (granule_id gd) rc
                    (if existsb (post_fault o) (post_events o opts gd dir) then 1 else 0)
                    text) /\
    trace (snd run) = (pre ++ post_events o opts gd dir ++ post)%list /\
    existsb (post_fault o) pre = false /\ existsb (post_fault o) post = false /\
    existsb is_report_event pre = false /\ existsb is_report_event post = false.
Proof.
  intros Hexec Hbin. apply exec_event_elem in Hexec as (Hst & Hanc & Hlink).
  destruct (afire_submitter_summary o args fs0 cwd0) as (n & _ & _ & Hres & Htr).
  rewrite Hres, Htr. unfold worker_summary. rewrite Hst, Hanc, Hbin.
  destruct (link_files o); [|discriminate].
  cbn [v_rc_exe v_rc_problem v_exe_out v_events].
  set (dir := run_dir_name (work_dir opts) (run_dir gd) n).
  set (post := post_events o opts gd dir).
  exists dir,
    (probes (work_dir opts) (run_dir gd) 0 (S n) ++
     EvMakedirs dir :: EvChdir dir :: stage_events o (granule_id gd) ++
     [EvLink dir; EvExec dir (cmd gd); EvChdir cwd0; EvWriteLog (log_path o dir) text])%list,
    (cleanup_events o opts (granule_id gd) dir cwd0 rc
       (if existsb (post_fault o) post then 1 else 0)).
  split; [reflexivity|]. split.
  { rewrite <- !app_assoc. cbn [app]. rewrite <- !app_assoc. reflexivity. }
  rewrite !existsb_app, !existsb_probes by (intros; reflexivity).
  rewrite !existsb_cleanup_events by (intros; reflexivity).
  unfold stage_events. cbn [existsb post_fault is_report_event orb app].
  rewrite !existsb_app.
  by destruct (is_ok (get_lwm o)).
Qed.

End WorkerTrace.

(** ** The work summary *)

Lemma sorted_set_elem (l : list string) (x : string) : x ∈ sorted_set l <-> x ∈ l.
Proof.
  unfold sorted_set, sorted. rewrite merge_sort_Permutation.
  rewrite elem_of_elements. apply elem_of_list_to_set.
Qed.

Lemma sorted_set_sorted (l : list string) : StronglySorted String.le (sorted_set l).
Proof. unfold sorted_set, sorted. apply (StronglySorted_merge_sort _). Qed.

Lemma sorted_set_NoDup (l : list string) : NoDup (sorted_set l).
Proof.
  unfold sorted_set, sorted. rewrite merge_sort_Permutation. apply NoDup_elements.
Qed.

Lemma populate_filter {S} (exe prob : gmap string Z) (granule_id_list : list string) :
  forall (acc : runs) (s : S),
  (forall g, g ∈ granule_id_list -> is_Some (exe !! g) /\ is_Some (prob !! g)) ->
  populate granule_id_list exe prob acc s =
    (Ok (mk_runs
           (attempted_runs acc ++ granule_id_list)
           (successful_runs acc ++
              filter (fun g => exe !! g = Some 0 /\ prob !! g = Some 0) granule_id_list)
           (crashed_runs acc ++ filter (fun g => exe !! g ≠ Some 0) granule_id_list)
           (problem_runs acc ++ filter (fun g => prob !! g ≠ Some 0) granule_id_list)),
     s).
Proof.
  induction granule_id_list as [|gid rest IH]; intros acc s Hkeys.
  - destruct acc. cbn. by rewrite !app_nil_r.
  - destruct (Hkeys gid) as [[rc Hrc] [rcp Hrcp]]; [left|].
    cbn [populate]. unfold bind, getitem, ret. rewrite Hrc, Hrcp.
    rewrite !filter_cons, Hrc, Hrcp.
    destruct (Z.eqb_spec rc 0) as [->|Hz]; destruct (Z.eqb_spec rcp 0) as [->|Hzp];
      cbn [negb]; rewrite IH by (intros g Hg; apply Hkeys; by right);
      cbn [attempted_runs successful_runs crashed_runs problem_runs];
      clear IH Hkeys; repeat case_decide; try (exfalso; intuition congruence);
      by rewrite <- !app_assoc.
Qed.

(** A granule whose status is missing stops the summary with [KeyError]. *)
Lemma populate_missing {S} (exe prob : gmap string Z) (gid : string)
    (rest : list string) (acc : runs) (s : S) :
  exe !! gid = None -> is_ok (fst (populate (gid :: rest) exe prob acc s)) = false.
Proof. intros H. cbn [populate]. unfold bind at 1, getitem at 1. by rewrite H. Qed.

(** Two status maps used in the examples: ["g1"] ran cleanly, ["g2"] crashed,
    ["g3"] exited cleanly with a problem. *)
Definition demo_ids : list string := ["g3"; "g1"; "g2"].
Definition demo_rc_exe : gmap string Z := <["g1" := 0]> (<["g2" := -11]> (<["g3" := 0]> ∅)).
Definition demo_rc_problem : gmap string Z := <["g1" := 0]> (<["g2" := 0]> (<["g3" := 1]> ∅)).

Lemma demo_ids_have_status (g : string) :
  g ∈ demo_ids -> is_Some (demo_rc_exe !! g) /\ is_Some (demo_rc_problem !! g).
Proof.
  unfold demo_ids. intros Hg.
  repeat (apply elem_of_cons in Hg as [->|Hg]); try (split; eexists; reflexivity).
  by apply elem_of_nil in Hg.
Defined.

(** The four lists in terms of the identifier list and the two maps. *)
Lemma summarize_runs {S} (granule_id_list : list string)
    (rc_exe_dict rc_problem_dict : gmap string Z) (s : S) :
  (forall g, g ∈ granule_id_list ->
             is_Some (rc_exe_dict !! g) /\ is_Some (rc_problem_dict !! g)) ->
  summarize granule_id_list rc_exe_dict rc_problem_dict s =
    (Ok (mk_runs
           (sorted_set granule_id_list)
           (sorted_set (filter (fun g => rc_exe_dict !! g = Some 0 /\
                                         rc_problem_dict !! g = Some 0) granule_id_list))
           (sorted_set (filter (fun g => rc_exe_dict !! g ≠ Some 0) granule_id_list))
           (sorted_set (filter (fun g => rc_problem_dict !! g ≠ Some 0) granule_id_list))),
     s).
Proof.
  intros Hkeys. unfold summarize, bind. rewrite (populate_filter _ _ _ _ _ Hkeys).
  reflexivity.
Qed.

(** A summary that is returned had a status for every listed granule. *)
Lemma summarize_returns_keys {S} (rc_exe_dict rc_problem_dict : gmap string Z)
    (granule_id_list : list string) (s s' : S) (lists : runs) :
  summarize granule_id_list rc_exe_dict rc_problem_dict s = (Ok lists, s') ->
  forall g, g ∈ granule_id_list ->
            is_Some (rc_exe_dict !! g) /\ is_Some (rc_problem_dict !! g).
Proof.
  unfold summarize, bind.
  destruct (populate granule_id_list rc_exe_dict rc_problem_dict
              (mk_runs [] [] [] []) s) as [[acc|e] s1] eqn:Hpop; [|discriminate].
  intros _. revert Hpop. generalize (mk_runs [] [] [] []). clear lists s'.
  revert s. induction granule_id_list as [|x rest IH]; intros s acc0 Hpop g Hg.
  { by apply elem_of_nil in Hg. }
  cbn [populate] in Hpop. unfold bind, getitem, ret, raise in Hpop.
  destruct (rc_exe_dict !! x) as [vx|] eqn:Hx; [|discriminate].
  destruct (rc_problem_dict !! x) as [vp|] eqn:Hp;
    [|destruct (vx =? 0)%Z; discriminate].
  apply elem_of_cons in Hg as [->|Hg]; [rewrite Hx, Hp; eauto|].
  destruct (vx =? 0)%Z; destruct (vp =? 0)%Z; cbn [negb] in Hpop;
    eapply IH; eauto.
Qed.

(** C7. The work summary consists of four lists of granule ids, each sorted
    and without duplicates, computed from the two status maps: every granule
    id is in [attempted_runs]; [successful_runs] holds exactly the ids with
    execution status 0 and problem status 0; [crashed_runs] exactly those
    with a non-zero execution status; [problem_runs] exactly those with a
    non-zero problem status, whatever the execution status. *)
Theorem work_summary_lists {S} (granule_id_list : list string)
    (rc_exe_dict rc_problem_dict : gmap string Z) (s : S) :
  (forall g, g ∈ granule_id_list ->
             is_Some (rc_exe_dict !! g) /\ is_Some (rc_problem_dict !! g)) ->
  exists r : runs,
    summarize granule_id_list rc_exe_dict rc_problem_dict s = (Ok r, s) /\
    Forall (fun l => StronglySorted String.le l /\ NoDup l)
           [attempted_runs r; successful_runs r; crashed_runs r; problem_runs r] /\
    forall g,
      (g ∈ attempted_runs r <-> g ∈ granule_id_list) /\
      (g ∈ successful_runs r <->
         g ∈ granule_id_list /\ rc_exe_dict !! g = Some 0 /\ rc_problem_dict !! g = Some 0) /\
      (g ∈ crashed_runs r <->
         g ∈ granule_id_list /\ exists rc, rc_exe_dict !! g = Some rc /\ rc ≠ 0) /\
      (g ∈ problem_runs r <->
         g ∈ granule_id_list /\ exists rc, rc_problem_dict !! g = Some rc /\ rc ≠ 0).
Proof.
  intros Hkeys. rewrite (summarize_runs _ _ _ _ Hkeys).
  eexists. split; [reflexivity|].
  cbn [attempted_runs successful_runs crashed_runs problem_runs].
  split.
  { repeat constructor; auto using sorted_set_sorted, sorted_set_NoDup. }
  intros g. rewrite !sorted_set_elem, !list_elem_of_filter.
  split; [done|]. split; [tauto|].
  split.
  - split.
    + intros [Hne Hg]. split; [done|]. destruct (Hkeys g Hg) as [[rc Hrc] _].
      exists rc. split; [done|]. congruence.
    + intros [Hg (rc & Hrc & Hne)]. split; [congruence|done].
  - split.
    + intros [Hne Hg]. split; [done|]. destruct (Hkeys g Hg) as [_ [rc Hrc]].
      exists rc. split; [done|]. congruence.
    + intros [Hg (rc & Hrc & Hne)]. split; [congruence|done].
Qed.

Lemma work_summary_lists_witness :
  exists r : runs,
    summarize demo_ids demo_rc_exe demo_rc_problem tt = (Ok r, tt) /\
    Forall (fun l => StronglySorted String.le l /\ NoDup l)
           [attempted_runs r; successful_runs r; crashed_runs r; problem_runs r] /\
    forall g,
      (g ∈ attempted_runs r <-> g ∈ demo_ids) /\
      (g ∈ successful_runs r <->
         g ∈ demo_ids /\ demo_rc_exe !! g = Some 0 /\ demo_rc_problem !! g = Some 0) /\
      (g ∈ crashed_runs r <->
         g ∈ demo_ids /\ exists rc, demo_rc_exe !! g = Some rc /\ rc ≠ 0) /\
      (g ∈ problem_runs r <->
         g ∈ demo_ids /\ exists rc, demo_rc_problem !! g = Some rc /\ rc ≠ 0).
Proof. apply work_summary_lists. exact demo_ids_have_status. Defined.

Example demo_summary :
  fst (summarize demo_ids demo_rc_exe demo_rc_problem tt)
  = Ok (mk_runs ["g1"; "g2"; "g3"] ["g1"] ["g2"] ["g3"]).
Proof. vm_compute. reflexivity. Qed.


(** ** Sample tasks *)

Definition demo_options : afire_options :=
  mk_afire_options "/opt/afire" true "/work" "/cache" false 6 false None true "1.0".

Definition demo_granule : granule_dict :=
  mk_granule_dict "NPP001" "AFIMG_npp" "vfire img.h5" "2017-02-07T00:00:00"
                  "AFIMG_npp_dev.nc" {["GITCO" := "2017_02_07_038-00h"]}.

Definition demo_args : task_args := mk_task_args demo_granule "/opt/afire" demo_options.

(** A run in which every collaborator succeeds: the binary exits with
    [rc] and the container holds [nfire] fire pixels. *)
Definition healthy (rc nfire : Z) : oracle :=
  mk_oracle (Ok (0, "/cache/lwm.nc")) (Ok 3%nat) (Ok (rc, "vfire done"))
            "2017-02-07T00:10:00" (fun _ => false) (fun _ => Ok tt)
            (Ok tt) (Ok nfire) (Ok [mk_fire_record 1 2 3 8 5])
            (fun _ => Ok tt) (Ok tt)
            ["/work/AFIMG_npp_run_0/AFIMG_npp_dev.nc"] (fun _ => Ok tt) (Ok tt).

(** Staging returns the status [rc_ancil]. *)
Definition staging_status (rc_ancil : Z) : oracle :=
  mk_oracle (Ok (rc_ancil, "/cache/lwm.nc")) (Ok 3%nat) (Ok (0, "vfire done"))
            "2017-02-07T00:10:00" (fun _ => false) (fun _ => Ok tt)
            (Ok tt) (Ok 0) (Ok [])
            (fun _ => Ok tt) (Ok tt) [] (fun _ => Ok tt) (Ok tt).

(** Linking the inputs into the run directory raises. *)
Definition link_fault : oracle :=
  mk_oracle (Ok (0, "/cache/lwm.nc")) (Raise (OtherException "OSError"))
            (Ok (0, "vfire done"))
            "2017-02-07T00:10:00" (fun _ => false) (fun _ => Ok tt)
            (Ok tt) (Ok 0) (Ok [])
            (fun _ => Ok tt) (Ok tt) [] (fun _ => Ok tt) (Ok tt).

(** ** Claims about the worker *)

(** C1. The worker's catch-all does not raise the problem status.  When
    linking the inputs raises, the fault is caught at the task boundary and
    logged, and the worker returns; the result it returns has execution
    status 0 and problem status 0, the values of a clean run. *)
Theorem catch_all_keeps_problem_rc :
  fst (afire_submitter link_fault demo_args ∅ "/home")
    = Ok (mk_result "NPP001" 0 0 "Finished the Active Fires granule NPP001") /\
  trace (snd (afire_submitter link_fault demo_args ∅ "/home"))
    = [EvProbe "/work/AFIMG_npp_run_0"; EvMakedirs "/work/AFIMG_npp_run_0";
       EvChdir "/work/AFIMG_npp_run_0"; EvStage "NPP001";
       EvLink "/work/AFIMG_npp_run_0"; EvWarn (WGeneral "NPP001"); EvChdir "/home"].
Proof. split; vm_compute; reflexivity. Qed.

Section WorkerClaims.
Variables (o : oracle) (args : task_args) (fs0 : gset string) (cwd0 : string).

Local Abbreviation gd := (arg_granule_dict args).
Local Abbreviation opts := (arg_afire_options args).

(** A fault that reaches the catch-all, here under the launcher or the
    linker, leaves both statuses at 0. *)
Lemma outer_fault_statuses :
  staging_failed o = false -> ancillary_only opts = false ->
  is_ok (link_files o) && is_ok (execute_binary_captured_inject_io o) = false ->
  fst (afire_submitter o args fs0 cwd0) = Ok (mk_result (granule_id gd) 0 0 (finished (granule_id gd))).
Proof.
  intros Hst Hanc Hfault.
  destruct (afire_submitter_summary o args fs0 cwd0) as (n & _ & _ & Hres & _).
  rewrite Hres. unfold worker_summary. rewrite Hst, Hanc.
  destruct (link_files o); [|reflexivity].
  destruct (execute_binary_captured_inject_io o) as [[]|]; [discriminate|reflexivity].
Qed.

(** C4. When ancillary staging fails, by a non-zero status or by raising,
    the worker returns problem status 1 and the binary is never launched. *)
Theorem staging_failure_skips_binary :
  (exists e, get_lwm o = Raise e) \/
  (exists rc_ancil lwm_file, get_lwm o = Ok (rc_ancil, lwm_file) /\ rc_ancil ≠ 0) ->
  exists r, fst (afire_submitter o args fs0 cwd0) = Ok r /\ res_rc_problem r = 1 /\
            forall d c, EvExec d c ∉ trace (snd (afire_submitter o args fs0 cwd0)).
Proof.
  intros Hfail.
  assert (Hst : staging_failed o = true).
  { unfold staging_failed. destruct Hfail as [[e ->]|(rc & f & -> & Hne)]; [done|].
    by destruct (Z.eqb_spec rc 0). }
  destruct (afire_submitter_summary o args fs0 cwd0) as (n & _ & _ & Hres & _).
  eexists. split; [exact Hres|]. unfold worker_summary. rewrite Hst.
  split; [reflexivity|].
  intros d c Hin.
  assert (Hex : exists d c, EvExec d c ∈ trace (snd (afire_submitter o args fs0 cwd0))) by eauto.
  apply (exec_event_elem o args fs0 cwd0) in Hex as (Hst' & _). congruence.
Qed.

(** Failed staging and the ancillary-only flag are two ways in which the
    binary is never launched. *)
Lemma not_launched_cases :
  staging_failed o = true \/ ancillary_only opts = true ->
  forall d c, EvExec d c ∉ trace (snd (afire_submitter o args fs0 cwd0)).
Proof.
  intros Hcase d c Hin.
  assert (Hex : exists d c, EvExec d c ∈ trace (snd (afire_submitter o args fs0 cwd0)))
    by eauto.
  apply (exec_event_elem o args fs0 cwd0) in Hex as (Hst & Hanc & _).
  destruct Hcase; congruence.
Qed.

(** C10. When the binary is never launched, the execution status the worker
    returns is 0, as for a clean exit: the granule is not in [crashed_runs],
    and it is in [problem_runs] exactly when its problem status is set. *)
Theorem not_launched_exec_rc_zero {S} (granule_id_list : list string)
    (rc_exe_dict rc_problem_dict : gmap string Z) (s : S) :
  (forall d c, EvExec d c ∉ trace (snd (afire_submitter o args fs0 cwd0))) ->
  exists r, fst (afire_submitter o args fs0 cwd0) = Ok r /\ res_rc_exe r = 0 /\
    forall lists s',
      rc_exe_dict !! granule_id gd = Some (res_rc_exe r) ->
      rc_problem_dict !! granule_id gd = Some (res_rc_problem r) ->
      summarize granule_id_list rc_exe_dict rc_problem_dict s = (Ok lists, s') ->
      (granule_id gd ∉ crashed_runs lists) /\
      (granule_id gd ∈ problem_runs lists <->
         granule_id gd ∈ granule_id_list /\ res_rc_problem r ≠ 0).
Proof.
  intros Hno.
  assert (Hb : negb (staging_failed o) && negb (ancillary_only opts)
               && is_ok (link_files o) = false).
  { rewrite <- (exec_event_iff o args fs0 cwd0). apply existsb_false_elem.
    intros [] Hin; try reflexivity. by apply Hno in Hin. }
  destruct (afire_submitter_summary o args fs0 cwd0) as (n & _ & _ & Hres & _).
  eexists. split; [exact Hres|].
  assert (Hrc : v_rc_exe (worker_summary o args cwd0
                  (run_dir_name (work_dir opts) (run_dir gd) n)) = 0).
  { unfold worker_summary.
    destruct (staging_failed o); [reflexivity|].
    destruct (ancillary_only opts); [reflexivity|].
    destruct (link_files o); [discriminate|reflexivity]. }
  cbn [res_rc_exe res_rc_problem]. split; [exact Hrc|].
  intros lists s' Hexe Hprob Hsum. rewrite Hrc in Hexe.
  pose proof (summarize_returns_keys _ _ _ _ _ _ Hsum) as Hkeys.
  rewrite (summarize_runs _ _ _ _ Hkeys) in Hsum. injection Hsum as <- <-.
  cbn [crashed_runs problem_runs].
  rewrite !sorted_set_elem, !list_elem_of_filter. split.
  - intros [Hne _]. by apply Hne.
  - split.
    + intros [Hne Hg]. split; [done|]. congruence.
    + intros [Hg Hne]. split; [congruence|done].
Qed.

(** Events of the repair and relocation steps are events of the whole run
    once the binary has returned. *)
Lemma post_events_in_trace (rc : Z) (text : string) :
  (exists d c, EvExec d c ∈ trace (snd (afire_submitter o args fs0 cwd0))) ->
  execute_binary_captured_inject_io o = Ok (rc, text) ->
  exists dir,
    fst (afire_submitter o args fs0 cwd0) = Ok (mk_result (granule_id gd) rc
                    (if existsb (post_fault o) (post_events o opts gd dir) then 1 else 0)
                    text) /\
    (forall e, e ∈ post_events o opts gd dir -> e ∈ trace (snd (afire_submitter o args fs0 cwd0))) /\
    existsb (post_fault o) (trace (snd (afire_submitter o args fs0 cwd0)))
      = existsb (post_fault o) (post_events o opts gd dir) /\
    existsb is_report_event (trace (snd (afire_submitter o args fs0 cwd0)))
      = existsb is_report_event (post_events o opts gd dir).
Proof.
  intros Hexec Hbin.
  destruct (executed_summary o args fs0 cwd0 rc text Hexec Hbin)
    as (dir & pre & post & Hres & Htr & Hpre & Hpost & Hpre' & Hpost').
  exists dir. split; [exact Hres|]. rewrite Htr. split.
  { intros e He. apply elem_of_app. right. apply elem_of_app. by left. }
  rewrite !existsb_app, Hpre, Hpost, Hpre', Hpost'. cbn [orb].
  by rewrite !orb_false_r.
Qed.


(** C8. When the binary was run and the output container reports zero fire
    pixels, no text report is opened or written, and the problem status is 0
    unless some call of repair or relocation raised. *)
Theorem zero_records_no_report :
  (exists d c, EvExec d c ∈ trace (snd (afire_submitter o args fs0 cwd0))) ->
  is_ok (execute_binary_captured_inject_io o) = true ->
  fire_count o = Ok 0 ->
  (forall e, e ∈ trace (snd (afire_submitter o args fs0 cwd0)) -> is_report_event e = false) /\
  ((forall e, e ∈ trace (snd (afire_submitter o args fs0 cwd0)) -> post_fault o e = false) ->
   exists r, fst (afire_submitter o args fs0 cwd0) = Ok r /\ res_rc_problem r = 0).
Proof.
  intros Hexec Hok Hcount.
  destruct (execute_binary_captured_inject_io o) as [[rc text]|] eqn:Hbin;
    [|discriminate].
  destruct (post_events_in_trace rc text Hexec Hbin) as (dir & Hres & _ & Hpf & Hrep).
  split.
  - apply existsb_false_elem. rewrite Hrep. unfold post_events.
    rewrite existsb_app, (repair_events_no_report o opts gd dir 0 Hcount) by lia.
    by rewrite existsb_move_events.
  - intros Hnone. apply existsb_false_elem in Hnone. rewrite Hpf in Hnone.
    eexists. split; [exact Hres|]. cbn [res_rc_problem]. by rewrite Hnone.
Qed.

End WorkerClaims.


(** ** The claims about the worker on sample tasks *)

Lemma staging_failure_skips_binary_witness :
  exists r, fst (afire_submitter (staging_status 1) demo_args ∅ "/home") = Ok r /\
            res_rc_problem r = 1 /\
            forall d c,
              EvExec d c ∉ trace (snd (afire_submitter (staging_status 1) demo_args ∅ "/home")).
Proof.
  apply staging_failure_skips_binary. right.
  exists 1, "/cache/lwm.nc". split; [reflexivity|discriminate].
Defined.

Definition demo_one_exe : gmap string Z := {["NPP001" := 0]}.
Definition demo_one_problem : gmap string Z := {["NPP001" := 1]}.

Lemma not_launched_exec_rc_zero_witness :
  exists r, fst (afire_submitter (staging_status 1) demo_args ∅ "/home") = Ok r /\
    res_rc_exe r = 0 /\
    forall lists s',
      demo_one_exe !! "NPP001" = Some (res_rc_exe r) ->
      demo_one_problem !! "NPP001" = Some (res_rc_problem r) ->
      summarize ["NPP001"] demo_one_exe demo_one_problem tt = (Ok lists, s') ->
      ("NPP001" ∉ crashed_runs lists) /\
      ("NPP001" ∈ problem_runs lists <->
         "NPP001" ∈ ["NPP001"] /\ res_rc_problem r ≠ 0).
Proof.
  apply (not_launched_exec_rc_zero (staging_status 1) demo_args ∅ "/home").
  apply not_launched_cases. left. reflexivity.
Defined.


Lemma zero_records_no_report_witness :
  (forall e, e ∈ trace (snd (afire_submitter (healthy 0 0) demo_args ∅ "/home")) ->
             is_report_event e = false) /\
  ((forall e, e ∈ trace (snd (afire_submitter (healthy 0 0) demo_args ∅ "/home")) ->
              post_fault (healthy 0 0) e = false) ->
   exists r, fst (afire_submitter (healthy 0 0) demo_args ∅ "/home") = Ok r /\
             res_rc_problem r = 0).
Proof.
  apply (zero_records_no_report (healthy 0 0) demo_args ∅ "/home").
  - apply exec_event_elem. repeat split; reflexivity.
  - reflexivity.
  - reflexivity.
Defined.

Definition demo_tree : gset string :=
  {["/work/AFIMG_npp_run_0"; "/work/AFIMG_npp_run_1"]}.

Definition demo_state : wstate := mk_wstate demo_tree "/home" [] 0 0 "".


Example run_dir_allocation_example :
  fst (allocate_run_dir "/work" "AFIMG_npp" demo_state) = Ok "/work/AFIMG_npp_run_2".
Proof. vm_compute. reflexivity. Qed.

Example zero_records_example :
  fst (afire_submitter (healthy 0 0) demo_args ∅ "/home")
    = Ok (mk_result "NPP001" 0 0 "vfire done").
Proof. vm_compute. reflexivity. Qed.

Example positive_records_example :
  existsb is_report_event (trace (snd (afire_submitter (healthy 0 1) demo_args ∅ "/home")))
    = true.
Proof. vm_compute. reflexivity. Qed.

(** ** The dispatcher *)

Lemma existsb_repair_events (P : event -> bool) (o : oracle) (opts : afire_options)
    (gd : granule_dict) (dir : string) :
  (forall p, P (EvRemove p) = false) ->
  (forall f g h, P (EvStamp f g h) = false) ->
  (forall f, P (EvReadCount f) = false) ->
  (forall f, P (EvReadRecords f) = false) ->
  (forall p, P (EvOpenReport p) = false) ->
  (forall p b n rows, P (EvWriteReport p b n rows) = false) ->
  (forall w, P (EvWarn w) = false) ->
  existsb P (repair_events o opts gd dir) = false.
Proof.
  intros H1 H2 H3 H4 H5 H6 H7. unfold repair_events. run_repair.
  repeat (first [ progress reduce_worker
                | progress rewrite <- ?app_assoc
                | oracle_case ]);
    cbn [existsb]; rewrite ?H1, ?H2, ?H3, ?H4, ?H5, ?H6, ?H7; reflexivity.
Qed.

Definition is_pool_event (e : event) : bool :=
  match e with
  | EvPool _ => true
  | _ => false
  end.

(** A worker creates no pool. *)
Lemma worker_no_pool_event (o : oracle) (args : task_args) (fs0 : gset string)
    (cwd0 : string) :
  existsb is_pool_event (trace (snd (afire_submitter o args fs0 cwd0))) = false.
Proof.
  destruct (afire_submitter_summary o args fs0 cwd0) as (n & _ & _ & _ & Htr).
  rewrite Htr. rewrite existsb_app, existsb_probes by (intros; reflexivity).
  unfold worker_summary, stage_events, post_events.
  destruct (staging_failed o); [|destruct (ancillary_only (arg_afire_options args));
    [|destruct (link_files o);
      [destruct (execute_binary_captured_inject_io o) as [[rc text]|]|]]];
    cbn [v_events existsb is_pool_event orb app];
    rewrite ?existsb_app; cbn [existsb is_pool_event orb app];
    rewrite ?existsb_app;
    rewrite ?existsb_cleanup_events by (intros; reflexivity);
    rewrite ?existsb_repair_events by (intros; reflexivity);
    rewrite ?existsb_move_events by (intros; reflexivity);
    destruct (is_ok (get_lwm o)); reflexivity.
Qed.

Section Dispatch.
Variables (collab : granule_dict -> oracle) (cpu_count_ : positive) (afire_home : string)
          (afire_data_dict : gmap string granule_dict) (opts : afire_options).

Lemma run_task_returns (args : task_args) (ps : pstate) :
  exists r ps' tr,
    run_task collab args ps = (Ok r, ps') /\
    res_granule_id r = granule_id (arg_granule_dict args) /\
    p_trace ps' = (p_trace ps ++ tr)%list /\
    existsb is_pool_event tr = false.
Proof.
  unfold run_task.
  destruct (afire_submitter_returns (collab (arg_granule_dict args)) args
              (p_fs ps) (p_cwd ps)) as (r & Hr & Hid).
  pose proof (worker_no_pool_event (collab (arg_granule_dict args)) args
                (p_fs ps) (p_cwd ps)) as Hnp.
  destruct (afire_submitter (collab (arg_granule_dict args)) args (p_fs ps) (p_cwd ps))
    as [res st]. cbn [fst snd] in Hr, Hnp. subst res.
  eexists _, _, _. split; [reflexivity|]. split; [exact Hid|].
  split; [reflexivity|exact Hnp].
Qed.

(** The pool returns one result per task, in the order of the tasks. *)
Lemma pool_map_returns (tasks : list task_args) : forall ps : pstate,
  exists rs ps' tr,
    pool_map collab tasks ps = (Ok rs, ps') /\
    res_granule_id <$> rs = (fun a => granule_id (arg_granule_dict a)) <$> tasks /\
    p_trace ps' = (p_trace ps ++ tr)%list /\
    existsb is_pool_event tr = false.
Proof.
  induction tasks as [|args rest IH]; intros ps.
  - exists [], ps, []. cbn. by rewrite app_nil_r.
  - destruct (run_task_returns args ps) as (r & ps1 & tr1 & Hrun & Hid & Htr1 & Hnp1).
    destruct (IH ps1) as (rs & ps2 & tr2 & Hmap & Hids & Htr2 & Hnp2).
    exists (r :: rs), ps2, (tr1 ++ tr2)%list.
    cbn [pool_map]. unfold bind. rewrite Hrun, Hmap. unfold ret.
    split; [reflexivity|]. split; [|split].
    + cbn. by rewrite Hid, Hids.
    + by rewrite Htr2, Htr1, app_assoc.
    + by rewrite existsb_app, Hnp1, Hnp2.
Qed.

Lemma collect_results_dom (result_list : list result) :
  dom (fst (collect_results result_list))
    = (list_to_set (res_granule_id <$> result_list) : gset string) /\
  dom (snd (collect_results result_list))
    = (list_to_set (res_granule_id <$> result_list) : gset string).
Proof.
  unfold collect_results.
  assert (Hall : forall (acc : gmap string Z * gmap string Z),
    let out := foldl (fun dicts r =>
                 (<[res_granule_id r := res_rc_exe r]> (fst dicts),
                  <[res_granule_id r := res_rc_problem r]> (snd dicts))) acc result_list in
    dom (fst out) = dom (fst acc) ∪ list_to_set (res_granule_id <$> result_list) /\
    dom (snd out) = dom (snd acc) ∪ list_to_set (res_granule_id <$> result_list)).
  { induction result_list as [|r rest IH]; intros acc.
    - cbn. split; set_solver.
    - cbn [foldl fmap list_fmap list_to_set].
      destruct (IH (<[res_granule_id r := res_rc_exe r]> (fst acc),
                    <[res_granule_id r := res_rc_problem r]> (snd acc))) as [H1 H2].
      cbn zeta in H1, H2. cbn zeta. rewrite H1, H2. cbn [fst snd].
      rewrite !dom_insert_L. split; set_solver. }
  destruct (Hall (∅, ∅)) as [H1 H2]. cbn zeta in H1, H2. rewrite H1, H2.
  cbn [fst snd]. rewrite dom_empty_L. split; set_solver.
Qed.

(** The granule ids of the submitted tasks. *)
Definition submitted_ids (d : gmap string granule_dict) : gset string :=
  list_to_set ((fun kv => granule_id (snd kv)) <$> map_to_list d).

Lemma build_tasks_ids :
  (list_to_set ((fun a => granule_id (arg_granule_dict a))
                  <$> build_tasks afire_home afire_data_dict opts) : gset string)
  = submitted_ids afire_data_dict.
Proof.
  unfold submitted_ids, build_tasks, sorted. apply set_eq. intros g.
  rewrite !elem_of_list_to_set, !list_elem_of_fmap. split.
  - intros (a & -> & Ha). apply list_elem_of_omap in Ha as (k & Hk & Hlook).
    destruct (afire_data_dict !! k) as [gd|] eqn:Hgd; [|discriminate].
    cbn in Hlook. injection Hlook as <-. exists (k, gd). split; [reflexivity|].
    by apply elem_of_map_to_list.
  - intros ([k gd] & -> & Hkv). apply elem_of_map_to_list in Hkv.
    exists (mk_task_args gd afire_home opts). split; [reflexivity|].
    apply list_elem_of_omap. exists k. split.
    + rewrite merge_sort_Permutation. apply elem_of_elements, elem_of_dom. eauto.
    + by rewrite Hkv.
Qed.

(** The requested number of processes, when there is one, is at least 1. *)
Definition request_valid (o : afire_options) : Prop :=
  forall requested, num_cpu o = Some requested -> 1 <= requested.

Lemma afire_dispatcher_returns (ps : pstate) :
  request_valid opts ->
  exists rs ps' tr,
    afire_dispatcher collab cpu_count_ afire_home afire_data_dict opts ps
      = (Ok (collect_results rs), ps') /\
    res_granule_id <$> rs
      = (fun a => granule_id (arg_granule_dict a))
          <$> build_tasks afire_home afire_data_dict opts /\
    p_trace ps'
      = (p_trace ps ++ (EvWarn <$> snd (size_pool (num_cpu opts) (Z.pos cpu_count_)))
         ++ EvPool (fst (size_pool (num_cpu opts) (Z.pos cpu_count_))) :: tr)%list /\
    existsb is_pool_event tr = false.
Proof.
  intros Hvalid. unfold afire_dispatcher.
  assert (Hsize1 : (fst (size_pool (num_cpu opts) (Z.pos cpu_count_)) <? 1)%Z = false).
  { apply Z.ltb_ge. unfold size_pool.
    destruct (num_cpu opts) as [requested|] eqn:Hreq; [|cbn [fst]; lia].
    pose proof (Hvalid requested Hreq).
    destruct (Z.gtb_spec requested (Z.pos cpu_count_)); cbn [fst]; lia. }
  destruct (size_pool (num_cpu opts) (Z.pos cpu_count_))
    as [cpus_to_use warnings] eqn:Hsize.
  cbn [fst snd] in *.
  assert (Hw : forall ps0, warn_all warnings ps0
            = (Ok tt, mk_pstate (p_fs ps0) (p_cwd ps0)
                                (p_trace ps0 ++ (EvWarn <$> warnings)))).
  { clear. induction warnings as [|w ws IH]; intros ps0.
    - destruct ps0. cbn. by rewrite app_nil_r.
    - cbn [warn_all]. unfold bind, plog. rewrite IH. cbn.
      by rewrite <- app_assoc. }
  unfold bind at 1. rewrite Hw. unfold bind at 1, pool_create. rewrite Hsize1.
  unfold plog.
  match goal with |- context [pool_map collab ?t] =>
    destruct (pool_map_returns t
                (mk_pstate (p_fs ps) (p_cwd ps)
                   ((p_trace ps ++ (EvWarn <$> warnings)) ++ [EvPool cpus_to_use])))
      as (rs & ps' & tr & Hmap & Hids & Htr & Hnp)
  end.
  exists rs, ps', tr. unfold bind. cbn [p_fs p_cwd p_trace]. rewrite Hmap. unfold ret.
  split; [reflexivity|]. split; [exact Hids|]. split; [|exact Hnp].
  rewrite Htr. cbn [p_trace]. rewrite <- !app_assoc. reflexivity.
Qed.

(** C2. Once the pool exists, the dispatcher returns two maps, and the key
    set of each is the set of the granule ids of the submitted tasks: no id
    is missing and none is added. *)
Theorem dispatch_result_keys (ps : pstate) :
  request_valid opts ->
  exists rc_exe_dict rc_problem_dict ps',
    afire_dispatcher collab cpu_count_ afire_home afire_data_dict opts ps
      = (Ok (rc_exe_dict, rc_problem_dict), ps') /\
    dom rc_exe_dict = submitted_ids afire_data_dict /\
    dom rc_problem_dict = submitted_ids afire_data_dict.
Proof.
  intros Hvalid.
  destruct (afire_dispatcher_returns ps Hvalid) as (rs & ps' & tr & Hrun & Hids & _).
  destruct (collect_results_dom rs) as [Hexe Hprob].
  destruct (collect_results rs) as [rc_exe_dict rc_problem_dict].
  exists rc_exe_dict, rc_problem_dict, ps'. split; [exact Hrun|].
  cbn [fst snd] in Hexe, Hprob. rewrite Hexe, Hprob, Hids.
  split; apply build_tasks_ids.
Qed.

(** When the input dictionary is keyed by granule id, as the input scanner
    builds it, the keys of both maps are the keys of the dictionary. *)
Lemma dispatch_result_keys_keyed (ps : pstate) :
  request_valid opts ->
  (forall k gd, afire_data_dict !! k = Some gd -> granule_id gd = k) ->
  exists rc_exe_dict rc_problem_dict ps',
    afire_dispatcher collab cpu_count_ afire_home afire_data_dict opts ps
      = (Ok (rc_exe_dict, rc_problem_dict), ps') /\
    dom rc_exe_dict = dom afire_data_dict /\
    dom rc_problem_dict = dom afire_data_dict.
Proof.
  intros Hvalid Hkeyed.
  destruct (afire_dispatcher_returns ps Hvalid) as (rs & ps' & tr & Hrun & Hids & _).
  destruct (collect_results_dom rs) as [Hexe Hprob].
  destruct (collect_results rs) as [rc_exe_dict rc_problem_dict].
  exists rc_exe_dict, rc_problem_dict, ps'. split; [exact Hrun|].
  cbn [fst snd] in Hexe, Hprob. rewrite Hexe, Hprob, Hids, build_tasks_ids.
  assert (Hsub : submitted_ids afire_data_dict = dom afire_data_dict); [|by rewrite Hsub].
  unfold submitted_ids. apply set_eq. intros g.
  rewrite elem_of_list_to_set, list_elem_of_fmap, elem_of_dom. split.
  - intros ([k gd] & -> & Hkv). apply elem_of_map_to_list in Hkv.
    cbn [snd]. rewrite (Hkeyed k gd Hkv). eauto.
  - intros [gd Hgd]. exists (g, gd). split; [symmetry; by apply Hkeyed|].
    by apply elem_of_map_to_list.
Qed.

(** C3, amended. When the requested number of processes, if there is one, is
    at least 1, the pool is created once.  Its size is the requested number
    when one is requested and it does not exceed the number of available
    processors; it is the number of available processors, after a warning
    and without an exception, when the request exceeds it; and it is the
    number of available processors when nothing is requested. *)
Theorem pool_size_rule (ps : pstate) :
  request_valid opts ->
  exists dicts ps' tr,
    afire_dispatcher collab cpu_count_ afire_home afire_data_dict opts ps
      = (Ok dicts, ps') /\
    (forall n, EvPool n ∉ tr) /\
    (num_cpu opts = None ->
       p_trace ps' = (p_trace ps ++ EvPool (Z.pos cpu_count_) :: tr)%list) /\
    (forall requested, num_cpu opts = Some requested -> requested <= Z.pos cpu_count_ ->
       p_trace ps' = (p_trace ps ++ EvPool requested :: tr)%list) /\
    (forall requested, num_cpu opts = Some requested -> Z.pos cpu_count_ < requested ->
       p_trace ps' = (p_trace ps ++ EvWarn (WCpuClamped requested (Z.pos cpu_count_))
                                 :: EvPool (Z.pos cpu_count_) :: tr)%list).
Proof.
  intros Hvalid.
  destruct (afire_dispatcher_returns ps Hvalid)
    as (rs & ps' & tr & Hrun & _ & Htr & Hnp).
  exists (collect_results rs), ps', tr. split; [exact Hrun|]. split.
  { intros n Hin. apply existsb_false_elem with (x := EvPool n) in Hnp; done. }
  rewrite Htr. unfold size_pool. split; [|split].
  - intros ->. reflexivity.
  - intros requested -> Hle.
    destruct (Z.gtb_spec requested (Z.pos cpu_count_)); [lia|reflexivity].
  - intros requested -> Hgt.
    destruct (Z.gtb_spec requested (Z.pos cpu_count_)); [reflexivity|lia].
Qed.

(** A request below 1 that does not exceed the available processors is
    handed to the pool as it is, and the pool refuses it. *)
Lemma pool_refuses_request (requested : Z) (ps : pstate) :
  num_cpu opts = Some requested -> requested < 1 ->
  afire_dispatcher collab cpu_count_ afire_home afire_data_dict opts ps
    = (Raise (OtherException "ValueError"), ps).
Proof.
  intros Hreq Hlt. unfold afire_dispatcher, size_pool. rewrite Hreq.
  destruct (Z.gtb_spec requested (Z.pos cpu_count_)); [lia|].
  cbn [warn_all]. unfold bind, ret, pool_create.
  destruct (Z.ltb_spec requested 1); [|lia]. reflexivity.
Qed.

End Dispatch.

(** Three tasks, ten processes requested, four processors available. *)
Definition demo_dict : gmap string granule_dict :=
  {[ "NPP001" := demo_granule;
     "NPP002" := mk_granule_dict "NPP002" "AFIMG_npp" "vfire img2.h5"
                   "2017-02-07T00:00:00" "AFIMG_npp2_dev.nc"
                   {["GITCO" := "2017_02_07_038-00h"]};
     "NPP003" := mk_granule_dict "NPP003" "AFIMG_j01" "vfire img3.h5"
                   "2017-02-07T00:00:00" "AFIMG_j01_dev.nc"
                   {["GITCO" := "2017_02_07_038-01h"]} ]}.

Definition demo_options_10 : afire_options :=
  mk_afire_options "/opt/afire" true "/work" "/cache" false 6 false (Some 10) true "1.0".

(** No process requested: [--num-cpu 0]. *)
Definition demo_options_0 : afire_options :=
  mk_afire_options "/opt/afire" true "/work" "/cache" false 6 false (Some 0) true "1.0".

Definition demo_process : pstate := mk_pstate ∅ "/home" [].

Lemma demo_request_valid : request_valid demo_options_10.
Proof. intros requested Hreq. injection Hreq as <-. discriminate. Defined.

Lemma dispatch_result_keys_witness :
  exists rc_exe_dict rc_problem_dict ps',
    afire_dispatcher (fun _ => healthy 0 0) 4 "/opt/afire" demo_dict demo_options_10
                     demo_process
      = (Ok (rc_exe_dict, rc_problem_dict), ps') /\
    dom rc_exe_dict = submitted_ids demo_dict /\
    dom rc_problem_dict = submitted_ids demo_dict.
Proof. apply dispatch_result_keys. exact demo_request_valid. Defined.

Lemma pool_size_rule_witness :
  exists dicts ps' tr,
    afire_dispatcher (fun _ => healthy 0 0) 4 "/opt/afire" demo_dict demo_options_10
                     demo_process
      = (Ok dicts, ps') /\
    (forall n, EvPool n ∉ tr) /\
    (num_cpu demo_options_10 = None ->
       p_trace ps' = (p_trace demo_process ++ EvPool 4 :: tr)%list) /\
    (forall requested, num_cpu demo_options_10 = Some requested -> requested <= 4 ->
       p_trace ps' = (p_trace demo_process ++ EvPool requested :: tr)%list) /\
    (forall requested, num_cpu demo_options_10 = Some requested -> 4 < requested ->
       p_trace ps' = (p_trace demo_process ++ EvWarn (WCpuClamped requested 4)
                                 :: EvPool 4 :: tr)%list).
Proof.
  apply (pool_size_rule (fun _ => healthy 0 0) 4 "/opt/afire" demo_dict demo_options_10).
  exact demo_request_valid.
Defined.

(** C3 as it is stated fails: zero processes are requested, which does not
    exceed the four available processors, yet no pool of size zero comes to
    exist; the dispatcher raises [ValueError] before any task is submitted. *)
Lemma pool_size_zero_request :
  afire_dispatcher (fun _ => healthy 0 0) 4 "/opt/afire" demo_dict demo_options_0
                   demo_process
    = (Raise (OtherException "ValueError"), demo_process) /\
  ~ (exists dicts ps' tr,
       afire_dispatcher (fun _ => healthy 0 0) 4 "/opt/afire" demo_dict demo_options_0
                        demo_process
         = (Ok dicts, ps') /\
       p_trace ps' = (p_trace demo_process ++ EvPool 0 :: tr)%list).
Proof.
  assert (Hrun : afire_dispatcher (fun _ => healthy 0 0) 4 "/opt/afire" demo_dict
                   demo_options_0 demo_process
                 = (Raise (OtherException "ValueError"), demo_process)).
  { apply (pool_refuses_request _ _ _ _ _ 0); [reflexivity|lia]. }
  split; [exact Hrun|].
  intros (dicts & ps' & tr & Hok & _). rewrite Hrun in Hok. discriminate.
Qed.

Example dispatch_three_tasks :
  fst (afire_dispatcher (fun _ => healthy 0 0) 4 "/opt/afire" demo_dict demo_options_10
         demo_process)
  = Ok ({["NPP001" := 0; "NPP002" := 0; "NPP003" := 0]},
        {["NPP001" := 0; "NPP002" := 0; "NPP003" := 0]}).
Proof. vm_compute. reflexivity. Qed.

Example dispatch_clamps_pool :
  take 2 (p_trace (snd (afire_dispatcher (fun _ => healthy 0 0) 4 "/opt/afire" demo_dict
                          demo_options_10 demo_process)))
  = [EvWarn (WCpuClamped 10 4); EvPool 4].
Proof. vm_compute. reflexivity. Qed.

(** ** The driver *)


(** The validation fails as soon as one required variable or path is
    missing. *)
Lemma check_environment_missing (env : environment) (work_dir_arg value : string) :
  check_and_convert_env_var env "CSPP_ACTIVE_FIRE_HOME" = Raise (CsppEnvironment value) ->
  check_environment env work_dir_arg = Raise (CsppEnvironment value).
Proof. intros H. unfold check_environment. by rewrite H. Qed.

(** Sample surroundings: an installation where everything is in place, and
    variants of it. *)
Definition demo_cli : cli_args :=
  mk_cli_args ["/data/in"] true "/work" None false 6 false (Some 10) "/work" true "1.0".

Definition demo_environment (home : outcome string)
    (found : outcome (gmap string granule_dict * list string)) : environment :=
  mk_environment
    (fun var => if bool_decide (var = "CSPP_ACTIVE_FIRE_HOME") then home
                else Ok "/opt/afire/static_ancillary")
    (fun p => Ok p)
    (fun p => p)
    (fun _ wd _ => pjoin wd "afire_cache")
    found
    (fun d => Ok d)
    (fun _ _ _ => Ok tt)
    (fun p => Ok (Some p))
    (fun _ => Ok tt)
    4%positive
    (fun _ => healthy 0 0).

Example main_success :
  fst (main (demo_environment (Ok "/opt/afire")
                              (Ok (demo_dict, ["NPP001"; "NPP002"; "NPP003"])))
            demo_cli demo_process) = Ok 0.
Proof. vm_compute. reflexivity. Qed.

Example main_installation_error :
  main (demo_environment (Raise (CsppEnvironment "CSPP_ACTIVE_FIRE_HOME is not set"))
                         (Ok (demo_dict, ["NPP001"])))
       demo_cli demo_process
  = (Ok 2,
     mk_pstate ∅ "/home"
       [EvLogError "CSPP_ACTIVE_FIRE_HOME is not set";
        EvLogError "Installation error, Make sure all software components were installed."]).
Proof. vm_compute. reflexivity. Qed.

Example main_input_fault :
  fst (main (demo_environment (Ok "/opt/afire") (Raise (OtherException "IOError")))
            demo_cli demo_process) = Ok 1.
Proof. vm_compute. reflexivity. Qed.

(** A granule id that the input dictionary does not hold stops input
    processing with [KeyError]. *)
Example main_unknown_granule :
  fst (main (demo_environment (Ok "/opt/afire") (Ok (demo_dict, ["NPP004"])))
            demo_cli demo_process) = Ok 1.
Proof. vm_compute. reflexivity. Qed.

Example process_afire_inputs_lists :
  fst (process_afire_inputs
         (demo_environment (Ok "/opt/afire") (Ok (demo_dict, ["NPP003"; "NPP001"; "NPP002"])))
         "/work" demo_options_10 demo_process)
  = Ok (mk_runs ["NPP001"; "NPP002"; "NPP003"] ["NPP001"; "NPP002"; "NPP003"] [] []).
Proof. vm_compute. reflexivity. Qed.

(** ** Library functions on sample values *)

Example pjoin_relative : pjoin "/work" "AFIMG_run_0" = "/work/AFIMG_run_0".
Proof. reflexivity. Qed.
Example pjoin_absolute : pjoin "/work" "/tmp/x" = "/tmp/x".
Proof. reflexivity. Qed.
Example dirname_run_dir : dirname "/work/AFIMG_run_0" = "/work".
Proof. reflexivity. Qed.
Example splitext_nc : splitext_root "/work/r_0/AFIMG_dev.nc" = "/work/r_0/AFIMG_dev".
Proof. reflexivity. Qed.
Example splitext_hidden : splitext_root "/work/.bashrc" = "/work/.bashrc".
Proof. reflexivity. Qed.
Example replace_dev : replace "dev" "dev_nasa" "AFIMG_dev.txt" = "AFIMG_dev_nasa.txt".
Proof. reflexivity. Qed.
Example sorted_set_ids : sorted_set ["b"; "a"; "b"] = ["a"; "b"].
Proof. vm_compute. reflexivity. Qed.

(** * Further properties of the code *)

(** ** The worker: directory, statuses, text *)


(** X2. Two suffixes never name the same run directory. *)
Theorem run_dir_names_distinct (work_dir_ base : string) (i j : nat) :
  i ≠ j -> run_dir_name work_dir_ base i ≠ run_dir_name work_dir_ base j.
Proof. intros Hne Heq. apply Hne. by apply (run_dir_name_inj work_dir_ base). Qed.

Lemma run_dir_names_distinct_witness :
  (9 ≠ 10)%nat /\
  run_dir_name "/work" "AFIMG_npp" 9 ≠ run_dir_name "/work" "AFIMG_npp" 10.
Proof. split; [discriminate|]. apply run_dir_names_distinct. discriminate. Defined.

Definition is_cleanup_event (e : event) : bool :=
  match e with
  | EvCleanup _ => true
  | _ => false
  end.

(** The events of linking, running the binary, logging its text, repairing
    and moving the output. *)
Definition is_processing_event (e : event) : bool :=
  match e with
  | EvLink _ | EvExec _ _ | EvWriteLog _ _ | EvRemove _ | EvStamp _ _ _
  | EvReadCount _ | EvReadRecords _ | EvOpenReport _ | EvWriteReport _ _ _ _
  | EvMove _ _ => true
  | _ => false
  end.

Lemma not_elem_kind {A} (P : A -> bool) (l : list A) (x : A) :
  existsb P l = false -> P x = true -> x ∉ l.
Proof.
  intros Hl Hx Hin. apply existsb_false_elem with (x := x) in Hl; [|done]. congruence.
Qed.

Lemma cleanup_events_elem (o : oracle) (opts : afire_options) (gid dir cwd0 p : string)
    (rc pr : Z) :
  EvCleanup p ∈ cleanup_events o opts gid dir cwd0 rc pr ->
  p = dir /\ rc = 0 /\ pr = 0 /\ docleanup opts = true.
Proof.
  unfold cleanup_events.
  destruct (Z.eqb_spec rc 0) as [->|]; cbn [andb];
    [|intros H; by apply elem_of_nil in H].
  destruct (Z.eqb_spec pr 0) as [->|]; cbn [andb];
    [|intros H; by apply elem_of_nil in H].
  destruct (docleanup opts); [|intros H; by apply elem_of_nil in H].
  intros H. apply elem_of_cons in H as [H|H]; [by injection H as ->|].
  destruct (is_ok (cleanup o)); [by apply elem_of_nil in H|].
  apply elem_of_cons in H as [H|H]; [discriminate|].
  apply elem_of_cons in H as [H|H]; [discriminate|]. by apply elem_of_nil in H.
Qed.




Section WorkerMore.
Variables (o : oracle) (args : task_args) (fs0 : gset string) (cwd0 : string).

Local Abbreviation gd := (arg_granule_dict args).
Local Abbreviation opts := (arg_afire_options args).

(** Every leaf of the worker ends in the directory it started in. *)
Lemma afire_submitter_cwd :
  cwd (snd (afire_submitter o args fs0 cwd0)) = cwd0.
Proof.
  set (st0 := mk_wstate fs0 cwd0 [] 0 0 (finished (granule_id gd))).
  destruct (create_run_dir_fuel (work_dir opts) (run_dir gd) st0)
    as (n & Hin & Hout & Halloc).
  unfold afire_submitter, submitter_body, try_except.
  fold (finished (granule_id gd)). fold st0.
  run_worker. rewrite Halloc. unfold allocated.
  subst st0. reduce_worker.
  destruct (get_lwm o) as [[rc_ancil lwm_file]|] eqn:Hlwm; reduce_worker;
    [destruct (rc_ancil =? 0)%Z eqn:Hrc; reduce_worker|];
    destruct (ancillary_only opts) eqn:Hanc; reduce_worker;
    try (destruct (docleanup opts) eqn:Hclean; reduce_worker;
         [destruct (cleanup o) as [[]|] eqn:Hcl; reduce_worker|]);
    try reflexivity.
  all: destruct (link_files o) eqn:Hlink; reduce_worker; [|reflexivity].
  all: destruct (execute_binary_captured_inject_io o) as [[rc text]|] eqn:Hexec;
    reduce_worker; [|reflexivity].
  all: rewrite repair_output_frame; reduce_worker;
    rewrite move_outputs_frame; reduce_worker;
    destruct (existsb (post_fault o) (repair_events o opts gd _));
    destruct (existsb (post_fault o) (move_events o (work_dir opts) (glob_outputs o)));
    reduce_worker; destruct (rc =? 0)%Z; reduce_worker;
    try (destruct (cleanup o) as [[]|] eqn:Hcl; reduce_worker);
    reflexivity.
Qed.

(** X3. On every path through the worker, the fault paths included, the current
    directory of the process is the one the worker started in (lines 66,
    104, 109, 151 and 356). *)
Theorem worker_restores_cwd :
  cwd (snd (afire_submitter o args fs0 cwd0)) = cwd0.
Proof. exact afire_submitter_cwd. Qed.

(** X4. The worker removes nothing but the run directory it created, and only
    after a run whose two statuses are 0 and with cleanup enabled (lines
    349-351). *)
Theorem cleanup_only_after_success (p : string) :
  EvCleanup p ∈ trace (snd (afire_submitter o args fs0 cwd0)) ->
  EvMakedirs p ∈ trace (snd (afire_submitter o args fs0 cwd0)) /\
  docleanup opts = true /\
  exists r, fst (afire_submitter o args fs0 cwd0) = Ok r /\
            res_rc_exe r = 0 /\ res_rc_problem r = 0.
Proof.
  destruct (afire_submitter_summary o args fs0 cwd0) as (n & _ & _ & Hres & Htr).
  rewrite Hres, Htr. clear Hres Htr. intros Hin.
  set (dir := run_dir_name (work_dir opts) (run_dir gd) n) in *.
  assert (Hmk : forall l, EvMakedirs dir
            ∈ (probes (work_dir opts) (run_dir gd) 0 (S n) ++ EvMakedirs dir :: l)%list).
  { intros l. apply elem_of_app. right. left. }
  apply elem_of_app in Hin as [Hin|Hin].
  { by apply (not_elem_kind is_cleanup_event) in Hin;
      [|apply existsb_probes; intros; reflexivity|]. }
  apply elem_of_cons in Hin as [Hin|Hin]; [discriminate|].
  revert Hin. unfold worker_summary, stage_events.
  destruct (staging_failed o).
  { cbn [v_events]. intros Hin. exfalso.
    apply (not_elem_kind is_cleanup_event) in Hin; [done| |done].
    cbn [existsb is_cleanup_event orb app]. rewrite existsb_app.
    by destruct (is_ok (get_lwm o)). }
  destruct (ancillary_only opts).
  { cbn [v_events v_rc_exe v_rc_problem]. intros Hin.
    apply elem_of_app in Hin as [Hin|Hin].
    { exfalso. apply (not_elem_kind is_cleanup_event) in Hin; [done| |done].
      cbn [existsb is_cleanup_event orb]. by destruct (is_ok (get_lwm o)). }
    apply elem_of_cons in Hin as [Hin|Hin]; [discriminate|].
    apply cleanup_events_elem in Hin as (-> & _ & _ & Hcl).
    split; [apply Hmk|]. split; [exact Hcl|]. eauto. }
  destruct (link_files o).
  2:{ cbn [v_events]. intros Hin. exfalso.
      apply (not_elem_kind is_cleanup_event) in Hin; [done| |done].
      cbn [existsb is_cleanup_event orb app]. rewrite existsb_app.
      by destruct (is_ok (get_lwm o)). }
  destruct (execute_binary_captured_inject_io o) as [[rc text]|].
  2:{ cbn [v_events]. intros Hin. exfalso.
      apply (not_elem_kind is_cleanup_event) in Hin; [done| |done].
      cbn [existsb is_cleanup_event orb app]. rewrite existsb_app.
      by destruct (is_ok (get_lwm o)). }
  cbn [v_events v_rc_exe v_rc_problem]. intros Hin.
  rewrite !app_assoc in Hin. apply elem_of_app in Hin as [Hin|Hin].
  { exfalso. apply (not_elem_kind is_cleanup_event) in Hin; [done| |done].
    rewrite !existsb_app. cbn [existsb is_cleanup_event orb].
    unfold post_events. rewrite existsb_app.
    rewrite existsb_repair_events by (intros; reflexivity).
    rewrite existsb_move_events by (intros; reflexivity).
    by destruct (is_ok (get_lwm o)). }
  apply cleanup_events_elem in Hin as (-> & -> & Hp & Hcl).
  split; [apply Hmk|]. split; [exact Hcl|]. eexists. split; [reflexivity|].
  cbn [res_rc_exe res_rc_problem]. split; [reflexivity|exact Hp].
Qed.

(** X5. The worker returns the granule id of its task; its problem status is 0
    or 1; and its execution status and text are either those the binary
    returned or the initial ones (0 and the default message), never a mix
    (lines 57-59, 134 and 359). *)
Theorem worker_result_shape :
  exists r, fst (afire_submitter o args fs0 cwd0) = Ok r /\
    res_granule_id r = granule_id gd /\
    (res_rc_problem r = 0 \/ res_rc_problem r = 1) /\
    ((res_rc_exe r = 0 /\
      res_exe_out r = "Finished the Active Fires granule " +:+ granule_id gd) \/
     execute_binary_captured_inject_io o = Ok (res_rc_exe r, res_exe_out r)).
Proof.
  destruct (afire_submitter_summary o args fs0 cwd0) as (n & _ & _ & Hres & _).
  eexists. split; [exact Hres|]. cbn [res_granule_id res_rc_exe res_rc_problem res_exe_out].
  split; [reflexivity|]. unfold worker_summary, finished.
  destruct (staging_failed o); [cbn; auto|].
  destruct (ancillary_only opts); [cbn; auto|].
  destruct (link_files o); [|cbn; auto].
  destruct (execute_binary_captured_inject_io o) as [[rc text]|]; [|cbn; auto].
  cbn [v_rc_exe v_rc_problem v_exe_out]. split; [|by right].
  destruct (existsb _ _); auto.
Qed.

(** X6. An ancillary-only run whose staging succeeds returns both statuses 0 and
    never links, runs the binary, writes a log, repairs or moves output
    (lines 96-104). *)
Theorem ancillary_only_success (lwm_file : string) :
  ancillary_only opts = true -> get_lwm o = Ok (0, lwm_file) ->
  fst (afire_submitter o args fs0 cwd0)
    = Ok (mk_result (granule_id gd) 0 0
            ("Finished the Active Fires granule " +:+ granule_id gd)) /\
  forall e, e ∈ trace (snd (afire_submitter o args fs0 cwd0)) ->
            is_processing_event e = false.
Proof.
  intros Hanc Hlwm.
  destruct (afire_submitter_summary o args fs0 cwd0) as (n & _ & _ & Hres & Htr).
  rewrite Hres, Htr. unfold worker_summary, staging_failed, stage_events.
  rewrite Hlwm, Hanc. cbn [negb Z.eqb is_ok v_rc_exe v_rc_problem v_exe_out v_events app].
  split; [reflexivity|]. apply existsb_false_elem.
  rewrite existsb_app, existsb_probes by (intros; reflexivity).
  cbn [existsb is_processing_event orb].
  by rewrite existsb_cleanup_events by (intros; reflexivity).
Qed.



End WorkerMore.

(** *** The properties of the worker on sample tasks *)

Definition demo_options_ancillary : afire_options :=
  mk_afire_options "/opt/afire" true "/work" "/cache" true 6 false None true "1.0".

Definition demo_args_ancillary : task_args :=
  mk_task_args demo_granule "/opt/afire" demo_options_ancillary.

Ltac elem_compute :=
  apply list_elem_of_In; vm_compute; repeat (first [left; reflexivity | right]).

Lemma cleanup_only_after_success_witness :
  EvMakedirs "/work/AFIMG_npp_run_0"
    ∈ trace (snd (afire_submitter (healthy 0 0) demo_args ∅ "/home")) /\
  docleanup demo_options = true /\
  exists r, fst (afire_submitter (healthy 0 0) demo_args ∅ "/home") = Ok r /\
            res_rc_exe r = 0 /\ res_rc_problem r = 0.
Proof.
  apply (cleanup_only_after_success (healthy 0 0) demo_args ∅ "/home").
  elem_compute.
Defined.

Lemma ancillary_only_success_witness :
  fst (afire_submitter (healthy 0 0) demo_args_ancillary ∅ "/home")
    = Ok (mk_result (granule_id demo_granule) 0 0
            ("Finished the Active Fires granule " +:+ granule_id demo_granule)) /\
  forall e, e ∈ trace (snd (afire_submitter (healthy 0 0) demo_args_ancillary ∅ "/home")) ->
            is_processing_event e = false.
Proof.
  apply (ancillary_only_success (healthy 0 0) demo_args_ancillary ∅ "/home"
           "/cache/lwm.nc"); reflexivity.
Defined.



Example report_name_example :
  splitext_root (pjoin "/work/AFIMG_npp_run_0" "AFIMG_npp_dev.nc") +:+ ".txt"
  = "/work/AFIMG_npp_run_0/AFIMG_npp_dev.txt".
Proof. reflexivity. Qed.

(** ** The dispatcher: tasks, staging, refusal *)

Definition is_stage_event (e : event) : bool :=
  match e with
  | EvStage _ => true
  | _ => false
  end.



Section DispatchMore.
Variables (collab : granule_dict -> oracle) (cpu_count_ : positive) (afire_home : string)
          (afire_data_dict : gmap string granule_dict) (opts : afire_options).



(** X9. The dispatcher builds one task per entry of the input dictionary; every
    task carries the home directory and the options it was given, unchanged,
    and the granule dictionary of one entry; and every entry has its task
    (lines 369-375). *)
Theorem build_tasks_one_per_entry :
  length (build_tasks afire_home afire_data_dict opts) = size afire_data_dict /\
  (forall a, a ∈ build_tasks afire_home afire_data_dict opts ->
     arg_afire_home a = afire_home /\ arg_afire_options a = opts /\
     exists k, afire_data_dict !! k = Some (arg_granule_dict a)) /\
  (forall k gd, afire_data_dict !! k = Some gd ->
     mk_task_args gd afire_home opts ∈ build_tasks afire_home afire_data_dict opts).
Proof.
  unfold build_tasks, sorted. split; [|split].
  - assert (Hlen : size afire_data_dict
                   = length (merge_sort String.le (elements (dom afire_data_dict)))).
    { rewrite <- size_dom. by rewrite merge_sort_Permutation. }
    rewrite Hlen. clear Hlen.
    assert (Hall : forall k, k ∈ merge_sort String.le (elements (dom afire_data_dict)) ->
                             is_Some (afire_data_dict !! k)).
    { intros k. rewrite merge_sort_Permutation, elem_of_elements. apply elem_of_dom. }
    induction (merge_sort String.le (elements (dom afire_data_dict))) as [|k ks IH];
      [done|].
    destruct (Hall k) as [gd Hgd]; [left|]. cbn. rewrite Hgd. cbn. f_equal.
    apply IH. intros k' Hk'. apply Hall. by right.
  - intros a Ha. apply list_elem_of_omap in Ha as (k & _ & Hk).
    destruct (afire_data_dict !! k) as [gd|] eqn:Hgd; [|discriminate].
    cbn in Hk. injection Hk as <-. cbn. eauto.
  - intros k gd Hgd. apply list_elem_of_omap. exists k. split.
    + rewrite merge_sort_Permutation. apply elem_of_elements, elem_of_dom. eauto.
    + by rewrite Hgd.
Qed.


(** X11. A requested number of processes below 1 is handed to the pool as it
    is; the pool refuses it, and the dispatcher raises [ValueError] without
    a warning and before any task runs: the process state is unchanged
    (lines 383-397). *)
Theorem invalid_request_runs_no_task (requested : Z) (ps : pstate) :
  num_cpu opts = Some requested -> requested < 1 ->
  afire_dispatcher collab cpu_count_ afire_home afire_data_dict opts ps
    = (Raise (OtherException "ValueError"), ps).
Proof.
  intros Hreq Hlt. unfold afire_dispatcher, size_pool. rewrite Hreq.
  destruct (Z.gtb_spec requested (Z.pos cpu_count_)); [lia|].
  cbn [warn_all]. unfold bind, ret, pool_create.
  destruct (Z.ltb_spec requested 1); [|lia]. reflexivity.
Qed.

End DispatchMore.


(** *** The properties of the dispatcher on sample tasks *)


Lemma invalid_request_runs_no_task_witness :
  afire_dispatcher (fun _ => healthy 0 0) 4 "/opt/afire" demo_dict demo_options_0
                   demo_process
    = (Raise (OtherException "ValueError"), demo_process).
Proof.
  apply (invalid_request_runs_no_task (fun _ => healthy 0 0) 4 "/opt/afire" demo_dict
           demo_options_0 0); [reflexivity|reflexivity].
Defined.


Example dispatch_stage_order :
  List.filter is_stage_event
    (p_trace (snd (afire_dispatcher (fun _ => healthy 0 0) 4 "/opt/afire" demo_dict
                     demo_options_10 demo_process)))
  = [EvStage "NPP001"; EvStage "NPP002"; EvStage "NPP003"].
Proof. vm_compute. reflexivity. Qed.

(** ** The driver: inputs and summary *)

(** A granule has a start time when the dictionary holds it and its entry
    holds a time for the geolocation prefix. *)
Definition has_geo_time (d : gmap string granule_dict) (geo_prefix gid : string) : bool :=
  match d !! gid with
  | Some gd => bool_decide (is_Some (geo_dt gd !! geo_prefix))
  | None => false
  end.

Lemma geo_time_run {S} (d : gmap string granule_dict) (geo_prefix gid : string) (s : S) :
  fst (geo_time d geo_prefix gid s)
    = (if has_geo_time d geo_prefix gid
       then match d !! gid with
            | Some gd => match geo_dt gd !! geo_prefix with
                         | Some dt => Ok dt
                         | None => Raise (OtherException "KeyError")
                         end
            | None => Raise (OtherException "KeyError")
            end
       else Raise (OtherException "KeyError")) /\
  snd (geo_time d geo_prefix gid s) = s.
Proof.
  unfold geo_time, has_geo_time, bind, getitem, ret, raise.
  destruct (d !! gid) as [gd|]; [|done].
  destruct (geo_dt gd !! geo_prefix) as [dt|] eqn:Hdt; cbn [fst snd].
  - by rewrite bool_decide_eq_true_2 by eauto.
  - rewrite bool_decide_eq_false_2; [done|]. by intros [x Hx].
Qed.

Lemma log_input_files_run (d : gmap string granule_dict) (geo_prefix : string)
    (granule_id_list : list string) (ps : pstate) :
  log_input_files d geo_prefix granule_id_list ps
    = (if forallb (has_geo_time d geo_prefix) granule_id_list
       then Ok tt else Raise (OtherException "KeyError"), ps).
Proof.
  induction granule_id_list as [|gid rest IH]; [done|].
  cbn [log_input_files forallb]. unfold bind.
  destruct (geo_time_run d geo_prefix gid ps) as [Hfst Hsnd].
  destruct (geo_time d geo_prefix gid ps) as [r ps1]. cbn [fst snd] in *. subst ps1.
  rewrite Hfst. destruct (has_geo_time d geo_prefix gid) eqn:Hhas; cbn [andb]; [|done].
  unfold has_geo_time in Hhas. destruct (d !! gid) as [gd|]; [|done].
  destruct (geo_dt gd !! geo_prefix); [exact IH|].
  rewrite bool_decide_eq_false_2 in Hhas; [done|]. by intros [x Hx].
Qed.

Section ProcessMore.
Variables (env : environment) (work_dir_arg : string) (opts : afire_options).

Local Abbreviation geo_prefix := (if i_band opts then "GITCO" else "GMTCO").

(** X13. When the scan of the inputs finds no valid granule, an empty dictionary
    or an empty list of ids, [process_afire_inputs] returns four empty lists
    at once: the command lines are not built, the cache is not touched and
    nothing is dispatched (lines 53-62). *)
Theorem no_inputs_returns_empty (d : gmap string granule_dict)
    (granule_id_list : list string) (ps : pstate) :
  get_afire_inputs env = Ok (d, granule_id_list) ->
  d = ∅ \/ granule_id_list = [] ->
  process_afire_inputs env work_dir_arg opts ps
    = (Ok (mk_runs [] [] [] []),
       mk_pstate (p_fs ps) (p_cwd ps) (p_trace ps ++ [EvGetInputs])).
Proof.
  intros Hget Hempty. unfold process_afire_inputs, bind at 1, pcall at 1.
  rewrite Hget.
  assert (Hb : bool_decide (d = ∅) || bool_decide (granule_id_list = []) = true).
  { destruct Hempty as [->| ->]; [done|]. by rewrite orb_true_r. }
  by rewrite Hb.
Qed.

(** X14. A listed granule id that the dictionary does not hold, or whose entry
    has no time for the geolocation prefix of the band, raises [KeyError]
    right after the command lines are built: the cache is not cleaned, no
    cache directory is created and nothing is dispatched (lines 64-74). *)
Theorem unknown_granule_stops_processing (d d' : gmap string granule_dict)
    (granule_id_list : list string) (gid : string) (ps : pstate) :
  get_afire_inputs env = Ok (d, granule_id_list) -> d ≠ ∅ ->
  construct_cmd_invocations env d = Ok d' ->
  gid ∈ granule_id_list ->
  has_geo_time d' geo_prefix gid = false ->
  process_afire_inputs env work_dir_arg opts ps
    = (Raise (OtherException "KeyError"),
       mk_pstate (p_fs ps) (p_cwd ps) (p_trace ps ++ [EvGetInputs; EvConstructCmds])).
Proof.
  intros Hget Hd Hcons Hin Hmiss. unfold process_afire_inputs, bind at 1, pcall at 1.
  rewrite Hget.
  rewrite bool_decide_eq_false_2 by done.
  rewrite bool_decide_eq_false_2 by (intros ->; by apply elem_of_nil in Hin).
  cbn [orb]. unfold bind at 1, pcall at 1. rewrite Hcons. cbn [p_fs p_cwd p_trace].
  unfold bind at 1. rewrite log_input_files_run.
  assert (Hall : forallb (has_geo_time d' geo_prefix) granule_id_list = false).
  { apply not_true_is_false. intros Hall. rewrite forallb_forall in Hall.
    apply list_elem_of_In in Hin. apply Hall in Hin. congruence. }
  rewrite Hall. by rewrite <- app_assoc.
Qed.

End ProcessMore.

(** X15. The summary raises [KeyError], and gives no list, as soon as one listed
    granule id has no execution status or no problem status (lines
    106-116). *)
Theorem summary_key_error {S} (granule_id_list : list string)
    (rc_exe_dict rc_problem_dict : gmap string Z) (gid : string) (s : S) :
  gid ∈ granule_id_list ->
  rc_exe_dict !! gid = None \/ rc_problem_dict !! gid = None ->
  summarize granule_id_list rc_exe_dict rc_problem_dict s
    = (Raise (OtherException "KeyError"), s).
Proof.
  intros Hin Hmiss. unfold summarize, bind.
  assert (Hpop : forall acc,
            populate granule_id_list rc_exe_dict rc_problem_dict acc s
              = (Raise (OtherException "KeyError"), s)); [|by rewrite Hpop].
  induction granule_id_list as [|x rest IH]; intros acc.
  { by apply elem_of_nil in Hin. }
  cbn [populate]. unfold bind, getitem, ret, raise.
  destruct (decide (x = gid)) as [->|Hne].
  - destruct (rc_exe_dict !! gid) as [rc|] eqn:Hrc; [|reflexivity].
    destruct Hmiss as [H|H]; [discriminate|]. rewrite H.
    by destruct (rc =? 0)%Z.
  - assert (Hrest : gid ∈ rest).
    { apply elem_of_cons in Hin as [->|Hin]; [done|exact Hin]. }
    destruct (rc_exe_dict !! x) as [rc|]; [|reflexivity].
    destruct (rc_problem_dict !! x) as [rcp|];
      [|by destruct (rc =? 0)%Z].
    destruct (rc =? 0)%Z; destruct (rcp =? 0)%Z; cbn [negb]; by apply IH.
Qed.

Lemma sorted_set_same (l1 l2 : list string) :
  (forall x, x ∈ l1 <-> x ∈ l2) -> sorted_set l1 = sorted_set l2.
Proof.
  intros Hsame. unfold sorted_set.
  assert (Hset : (list_to_set l1 : gset string) = list_to_set l2); [|by rewrite Hset].
  apply set_eq. intros x. by rewrite !elem_of_list_to_set.
Qed.

(** X16. The four lists depend only on which granule ids are listed: the order
    of the list and the repetitions in it do not matter (lines 118-121). *)
Theorem summary_ignores_order {S} (ids1 ids2 : list string)
    (rc_exe_dict rc_problem_dict : gmap string Z) (s : S) :
  (forall g, g ∈ ids1 <-> g ∈ ids2) ->
  (forall g, g ∈ ids1 ->
             is_Some (rc_exe_dict !! g) /\ is_Some (rc_problem_dict !! g)) ->
  summarize ids1 rc_exe_dict rc_problem_dict s
    = summarize ids2 rc_exe_dict rc_problem_dict s.
Proof.
  intros Hsame Hkeys.
  rewrite (summarize_runs ids1 _ _ _ Hkeys).
  rewrite (summarize_runs ids2) by (intros g Hg; apply Hkeys, Hsame, Hg).
  f_equal. f_equal. f_equal; apply sorted_set_same; intros x;
    rewrite ?list_elem_of_filter, ?Hsame; done.
Qed.

(** X17. A granule in [successful_runs] is in neither [crashed_runs] nor
    [problem_runs]; every attempted granule is in at least one of the three;
    and the three hold attempted granules only (lines 106-116). *)
Theorem summary_lists_cover {S} (granule_id_list : list string)
    (rc_exe_dict rc_problem_dict : gmap string Z) (s : S) :
  (forall g, g ∈ granule_id_list ->
             is_Some (rc_exe_dict !! g) /\ is_Some (rc_problem_dict !! g)) ->
  exists r : runs,
    summarize granule_id_list rc_exe_dict rc_problem_dict s = (Ok r, s) /\
    (forall g, g ∈ successful_runs r -> (g ∉ crashed_runs r) /\ (g ∉ problem_runs r)) /\
    (forall g, g ∈ attempted_runs r ->
               g ∈ successful_runs r \/ g ∈ crashed_runs r \/ g ∈ problem_runs r) /\
    (forall g, g ∈ successful_runs r \/ g ∈ crashed_runs r \/ g ∈ problem_runs r ->
               g ∈ attempted_runs r).
Proof.
  intros Hkeys. rewrite (summarize_runs _ _ _ _ Hkeys). eexists. split; [reflexivity|].
  cbn [attempted_runs successful_runs crashed_runs problem_runs].
  split; [|split]; intros g; rewrite !sorted_set_elem, !list_elem_of_filter.
  - intros [[He Hp] Hg]. split; intros [Hne _]; by apply Hne.
  - intros Hg. destruct (Hkeys g Hg) as [[rc Hrc] [rcp Hrcp]].
    destruct (decide (rc = 0)) as [->|]; [|right; left; split; [congruence|done]].
    destruct (decide (rcp = 0)) as [->|]; [left; done|].
    right. right. split; [congruence|done].
  - intros [[_ Hg]|[[_ Hg]|[_ Hg]]]; exact Hg.
Qed.

Lemma demo_dict_nonempty : demo_dict ≠ ∅.
Proof.
  intros Hempty. apply (f_equal (fun d => bool_decide (is_Some (d !! "NPP001")))) in Hempty.
  vm_compute in Hempty. discriminate.
Defined.

Lemma no_inputs_returns_empty_witness :
  process_afire_inputs (demo_environment (Ok "/opt/afire") (Ok (demo_dict, [])))
    "/work" demo_options_10 demo_process
  = (Ok (mk_runs [] [] [] []),
     mk_pstate (p_fs demo_process) (p_cwd demo_process)
       (p_trace demo_process ++ [EvGetInputs])).
Proof.
  apply (no_inputs_returns_empty _ "/work" demo_options_10 demo_dict []).
  - reflexivity.
  - right. reflexivity.
Defined.

Lemma unknown_granule_stops_processing_witness :
  process_afire_inputs
    (demo_environment (Ok "/opt/afire") (Ok (demo_dict, ["NPP001"; "NPP004"])))
    "/work" demo_options_10 demo_process
  = (Raise (OtherException "KeyError"),
     mk_pstate (p_fs demo_process) (p_cwd demo_process)
       (p_trace demo_process ++ [EvGetInputs; EvConstructCmds])).
Proof.
  apply (unknown_granule_stops_processing _ "/work" demo_options_10
           demo_dict demo_dict ["NPP001"; "NPP004"] "NPP004").
  - reflexivity.
  - exact demo_dict_nonempty.
  - reflexivity.
  - elem_compute.
  - vm_compute. reflexivity.
Defined.

Lemma summary_key_error_witness :
  summarize ["g1"; "g4"] demo_rc_exe demo_rc_problem tt
    = (Raise (OtherException "KeyError"), tt).
Proof.
  apply (summary_key_error ["g1"; "g4"] demo_rc_exe demo_rc_problem "g4").
  - elem_compute.
  - left. vm_compute. reflexivity.
Defined.

Lemma summary_ignores_order_witness :
  summarize demo_ids demo_rc_exe demo_rc_problem tt
    = summarize ["g1"; "g2"; "g2"; "g3"; "g1"] demo_rc_exe demo_rc_problem tt.
Proof.
  apply summary_ignores_order.
  - intros g. unfold demo_ids. rewrite !elem_of_cons, !elem_of_nil. tauto.
  - exact demo_ids_have_status.
Defined.

Lemma summary_lists_cover_witness :
  exists r : runs,
    summarize demo_ids demo_rc_exe demo_rc_problem tt = (Ok r, tt) /\
    (forall g, g ∈ successful_runs r -> (g ∉ crashed_runs r) /\ (g ∉ problem_runs r)) /\
    (forall g, g ∈ attempted_runs r ->
               g ∈ successful_runs r \/ g ∈ crashed_runs r \/ g ∈ problem_runs r) /\
    (forall g, g ∈ successful_runs r \/ g ∈ crashed_runs r \/ g ∈ problem_runs r ->
               g ∈ attempted_runs r).
Proof. apply summary_lists_cover. exact demo_ids_have_status. Defined.

(** ** The driver: the ancillary cache *)

Definition is_clean_cache_event (e : event) : bool :=
  match e with
  | EvCleanCache _ _ _ => true
  | _ => false
  end.

(** A worker does not clean the cache. *)
Lemma worker_no_clean_cache_event (o : oracle) (args : task_args) (fs0 : gset string)
    (cwd0 : string) :
  existsb is_clean_cache_event (trace (snd (afire_submitter o args fs0 cwd0))) = false.
Proof.
  destruct (afire_submitter_summary o args fs0 cwd0) as (n & _ & _ & _ & Htr).
  rewrite Htr. rewrite existsb_app, existsb_probes by (intros; reflexivity).
  unfold worker_summary, stage_events, post_events.
  destruct (staging_failed o); [|destruct (ancillary_only (arg_afire_options args));
    [|destruct (link_files o);
      [destruct (execute_binary_captured_inject_io o) as [[rc text]|]|]]];
    cbn [v_events existsb is_clean_cache_event orb app];
    rewrite ?existsb_app; cbn [existsb is_clean_cache_event orb app];
    rewrite ?existsb_app;
    rewrite ?existsb_cleanup_events by (intros; reflexivity);
    rewrite ?existsb_repair_events by (intros; reflexivity);
    rewrite ?existsb_move_events by (intros; reflexivity);
    destruct (is_ok (get_lwm o)); reflexivity.
Qed.

(** [quiet m]: whatever [m] returns or raises, the events it adds to the
    trace of the process hold no cleaning of the cache. *)
Definition quiet {A} (m : M pstate A) : Prop :=
  forall ps, exists added,
    p_trace (snd (m ps)) = (p_trace ps ++ added)%list /\
    existsb is_clean_cache_event added = false.

Lemma quiet_ret {A} (a : A) : quiet (ret a).
Proof. intros ps. exists []. by rewrite app_nil_r. Qed.

Lemma quiet_raise {A} (e : exn) : quiet (raise (A := A) e).
Proof. intros ps. exists []. by rewrite app_nil_r. Qed.

Lemma quiet_plog (e : event) : is_clean_cache_event e = false -> quiet (plog e).
Proof. intros He ps. exists [e]. cbn. by rewrite He. Qed.

Lemma quiet_pcall {A} (e : event) (o : outcome A) :
  is_clean_cache_event e = false -> quiet (pcall e o).
Proof. intros He ps. exists [e]. cbn. by rewrite He. Qed.

Lemma quiet_bind {A B} (m : M pstate A) (k : A -> M pstate B) :
  quiet m -> (forall a, quiet (k a)) -> quiet (bind m k).
Proof.
  intros Hm Hk ps. unfold bind. destruct (Hm ps) as (tr1 & Htr1 & Hq1).
  destruct (m ps) as [[a|e] ps1]; cbn [snd] in *.
  - destruct (Hk a ps1) as (tr2 & Htr2 & Hq2). exists (tr1 ++ tr2)%list.
    rewrite Htr2, Htr1, app_assoc, existsb_app, Hq1, Hq2. done.
  - by exists tr1.
Qed.

Lemma quiet_try_except {A} (body handler : M pstate A) :
  quiet body -> quiet handler -> quiet (try_except body handler).
Proof.
  intros Hm Hk ps. unfold try_except. destruct (Hm ps) as (tr1 & Htr1 & Hq1).
  destruct (body ps) as [[a|e] ps1]; cbn [snd] in *.
  - by exists tr1.
  - destruct (Hk ps1) as (tr2 & Htr2 & Hq2). exists (tr1 ++ tr2)%list.
    rewrite Htr2, Htr1, app_assoc, existsb_app, Hq1, Hq2. done.
Qed.

Lemma quiet_getitem {V} (d : gmap string V) (k : string) : quiet (getitem d k).
Proof. unfold getitem. destruct (d !! k); [apply quiet_ret|apply quiet_raise]. Qed.

Lemma quiet_geo_time (d : gmap string granule_dict) (geo_prefix gid : string) :
  quiet (geo_time d geo_prefix gid).
Proof. apply quiet_bind; intros; apply quiet_getitem. Qed.

Lemma quiet_log_input_files (d : gmap string granule_dict) (geo_prefix : string)
    (granule_id_list : list string) :
  quiet (log_input_files d geo_prefix granule_id_list).
Proof.
  induction granule_id_list as [|gid rest IH]; [apply quiet_ret|].
  apply quiet_bind; [apply quiet_geo_time|intros _; exact IH].
Qed.

Lemma quiet_create_cache_dirs (env : environment) (opts : afire_options)
    (d : gmap string granule_dict) (geo_prefix : string) (granule_id_list : list string) :
  quiet (create_cache_dirs env opts d geo_prefix granule_id_list).
Proof.
  induction granule_id_list as [|gid rest IH]; [apply quiet_ret|].
  cbn [create_cache_dirs]. apply quiet_bind; [apply quiet_geo_time|intros anc_dir].
  apply quiet_bind; [by apply quiet_pcall|intros made].
  apply quiet_bind; [|intros _; exact IH].
  destruct made; [apply quiet_ret|by apply quiet_plog].
Qed.

Lemma quiet_warn_all (ws : list warning) : quiet (warn_all ws).
Proof.
  induction ws as [|w rest IH]; [apply quiet_ret|].
  apply quiet_bind; [by apply quiet_plog|intros _; exact IH].
Qed.

Lemma quiet_run_task (collab : granule_dict -> oracle) (args : task_args) :
  quiet (run_task collab args).
Proof.
  intros ps. unfold run_task.
  pose proof (worker_no_clean_cache_event (collab (arg_granule_dict args)) args
                (p_fs ps) (p_cwd ps)) as Hq.
  destruct (afire_submitter _ args (p_fs ps) (p_cwd ps)) as [r st]. cbn [snd] in *.
  by exists (trace st).
Qed.

Lemma quiet_pool_map (collab : granule_dict -> oracle) (tasks : list task_args) :
  quiet (pool_map collab tasks).
Proof.
  induction tasks as [|args rest IH]; [apply quiet_ret|].
  cbn [pool_map]. apply quiet_bind; [apply quiet_run_task|intros r].
  apply quiet_bind; [exact IH|intros rs; apply quiet_ret].
Qed.

Lemma quiet_afire_dispatcher (collab : granule_dict -> oracle) (cpus : positive)
    (afire_home : string) (d : gmap string granule_dict) (opts : afire_options) :
  quiet (afire_dispatcher collab cpus afire_home d opts).
Proof.
  unfold afire_dispatcher. destruct (size_pool _ _) as [cpus_to_use warnings].
  apply quiet_bind; [apply quiet_warn_all|intros _].
  apply quiet_bind.
  { unfold pool_create. destruct (cpus_to_use <? 1)%Z; [apply quiet_raise|by apply quiet_plog]. }
  intros _. apply quiet_bind; [apply quiet_pool_map|intros rs; apply quiet_ret].
Qed.

Lemma quiet_populate (granule_id_list : list string)
    (rc_exe_dict rc_problem_dict : gmap string Z) (acc : runs) :
  quiet (populate granule_id_list rc_exe_dict rc_problem_dict acc).
Proof.
  revert acc. induction granule_id_list as [|gid rest IH]; intros acc; [apply quiet_ret|].
  cbn [populate]. apply quiet_bind; [apply quiet_getitem|intros rc].
  apply quiet_bind.
  - destruct (rc =? 0)%Z; [|apply quiet_ret].
    apply quiet_bind; [apply quiet_getitem|intros rcp].
    destruct (rcp =? 0)%Z; apply quiet_ret.
  - intros acc'. apply quiet_bind; [apply quiet_getitem|intros rcp]. apply IH.
Qed.

Lemma quiet_summarize (granule_id_list : list string)
    (rc_exe_dict rc_problem_dict : gmap string Z) :
  quiet (summarize granule_id_list rc_exe_dict rc_problem_dict).
Proof. apply quiet_bind; [apply quiet_populate|intros acc; apply quiet_ret]. Qed.

Lemma existsb_no_clean (tr : list event) :
  existsb is_clean_cache_event tr = false ->
  forall dir window first_dt, EvCleanCache dir window first_dt ∉ tr.
Proof.
  intros Hq dir window first_dt Hin.
  apply not_true_iff_false in Hq. apply Hq. apply existsb_exists.
  exists (EvCleanCache dir window first_dt). split; [by apply list_elem_of_In|done].
Qed.

(** X18. With [preserve_cache] set, a run never cleans the ancillary cache:
    whatever the inputs are and wherever the run stops, [clean_cache] is not
    among the calls that [process_afire_inputs] adds to the trace (lines
    76-82). *)
Theorem preserve_cache_never_cleans (env : environment) (work_dir_arg : string)
    (opts : afire_options) (ps : pstate) :
  preserve_cache opts = true ->
  exists added,
    p_trace (snd (process_afire_inputs env work_dir_arg opts ps))
      = (p_trace ps ++ added)%list /\
    forall dir window first_dt, EvCleanCache dir window first_dt ∉ added.
Proof.
  intros Hkeep.
  assert (Hq : quiet (process_afire_inputs env work_dir_arg opts)).
  { unfold process_afire_inputs. rewrite Hkeep. cbn [negb].
    apply quiet_bind; [by apply quiet_pcall|intros [d granule_id_list]].
    destruct (_ || _); [apply quiet_ret|].
    apply quiet_bind; [by apply quiet_pcall|intros d'].
    apply quiet_bind; [apply quiet_log_input_files|intros _].
    apply quiet_bind; [apply quiet_ret|intros _].
    apply quiet_bind; [apply quiet_create_cache_dirs|intros _].
    apply quiet_bind; [apply quiet_afire_dispatcher|intros [rc_exe_dict rc_problem_dict]].
    apply quiet_bind; [|intros _; apply quiet_summarize].
    destruct (docleanup opts); [by apply quiet_pcall|apply quiet_ret]. }
  destruct (Hq ps) as (added & Htr & Hclean). exists added.
  split; [exact Htr|by apply existsb_no_clean].
Qed.

Section CacheCleaning.
Variables (env : environment) (work_dir_arg : string) (opts : afire_options).

Local Abbreviation geo_prefix := (if i_band opts then "GITCO" else "GMTCO").

(** X19. Without [preserve_cache], the cache is cleaned once the input files are
    logged, before any cache directory is created: [clean_cache] is called
    with the cache directory, the window of the options and the start time
    of the granule that is first in the list of ids, whatever the times of
    the others (lines 76-82). *)
Theorem cache_cleaned_from_first_granule (d d' : gmap string granule_dict)
    (gid : string) (rest : list string) (gd : granule_dict) (dt : string) (ps : pstate) :
  get_afire_inputs env = Ok (d, gid :: rest) -> d ≠ ∅ ->
  construct_cmd_invocations env d = Ok d' ->
  forallb (has_geo_time d' geo_prefix) (gid :: rest) = true ->
  d' !! gid = Some gd -> geo_dt gd !! geo_prefix = Some dt ->
  preserve_cache opts = false ->
  exists later,
    p_trace (snd (process_afire_inputs env work_dir_arg opts ps))
      = (p_trace ps
         ++ [EvGetInputs; EvConstructCmds;
             EvCleanCache (cache_dir opts) (cache_window opts) dt]
         ++ later)%list /\
    (is_ok (clean_cache env (cache_dir opts) (cache_window opts) dt) = false ->
     later = []).
Proof.
  intros Hget Hd Hcons Hall Hgd Hdt Hkeep.
  unfold process_afire_inputs, bind at 1, pcall at 1. rewrite Hget.
  rewrite bool_decide_eq_false_2 by done.
  rewrite bool_decide_eq_false_2 by done.
  cbn [orb]. unfold bind at 1, pcall at 1. rewrite Hcons. cbn [p_fs p_cwd p_trace].
  unfold bind at 1. rewrite log_input_files_run, Hall, Hkeep. cbn [negb].
  unfold bind at 1. unfold bind at 1.
  unfold geo_time at 1, bind at 1, getitem at 1. rewrite Hgd. unfold ret at 1.
  unfold getitem at 1. rewrite Hdt. unfold ret at 1, pcall at 1.
  cbn [p_fs p_cwd p_trace].
  destruct (clean_cache env (cache_dir opts) (cache_window opts) dt) as [[]|e] eqn:Hclean.
  - match goal with
    | |- context [bind ?m ?k ?s] =>
        assert (Hq : quiet (bind m k)); [|destruct (Hq s) as (later & Htr & _)]
    end.
    + apply quiet_bind; [apply quiet_create_cache_dirs|intros _].
      apply quiet_bind; [apply quiet_afire_dispatcher|intros [e1 e2]].
      apply quiet_bind; [|intros _; apply quiet_summarize].
      destruct (docleanup opts); [by apply quiet_pcall|apply quiet_ret].
    + exists later. cbn [p_trace] in Htr. rewrite Htr. rewrite <- !app_assoc. cbn [app].
      split; [reflexivity|]. cbn [is_ok]. discriminate.
  - exists []. cbn [snd p_trace]. rewrite <- !app_assoc. cbn [app]. done.
Qed.

End CacheCleaning.

Definition demo_options_preserve : afire_options :=
  mk_afire_options "/opt/afire" true "/work" "/cache" false 6 true (Some 10) true "1.0".

Lemma preserve_cache_never_cleans_witness :
  exists added,
    p_trace (snd (process_afire_inputs
                    (demo_environment (Ok "/opt/afire")
                                      (Ok (demo_dict, ["NPP001"; "NPP002"])))
                    "/work" demo_options_preserve demo_process))
      = (p_trace demo_process ++ added)%list /\
    forall dir window first_dt, EvCleanCache dir window first_dt ∉ added.
Proof. apply preserve_cache_never_cleans. reflexivity. Defined.

Lemma cache_cleaned_from_first_granule_witness :
  exists later,
    p_trace (snd (process_afire_inputs
                    (demo_environment (Ok "/opt/afire")
                                      (Ok (demo_dict, ["NPP003"; "NPP001"])))
                    "/work" demo_options_10 demo_process))
      = (p_trace demo_process
         ++ [EvGetInputs; EvConstructCmds; EvCleanCache "/cache" 6 "2017_02_07_038-01h"]
         ++ later)%list /\
    (is_ok (clean_cache (demo_environment (Ok "/opt/afire")
                                          (Ok (demo_dict, ["NPP003"; "NPP001"])))
                        "/cache" 6 "2017_02_07_038-01h") = false ->
     later = []).
Proof.
  apply (cache_cleaned_from_first_granule
           (demo_environment (Ok "/opt/afire") (Ok (demo_dict, ["NPP003"; "NPP001"])))
           "/work" demo_options_10 demo_dict demo_dict "NPP003" ["NPP001"]
           (mk_granule_dict "NPP003" "AFIMG_j01" "vfire img3.h5"
              "2017-02-07T00:00:00" "AFIMG_j01_dev.nc"
              {["GITCO" := "2017_02_07_038-01h"]})).
  - reflexivity.
  - exact demo_dict_nonempty.
  - reflexivity.
  - vm_compute. reflexivity.
  - vm_compute. reflexivity.
  - vm_compute. reflexivity.
  - reflexivity.
Defined.

(** ** The driver: a run that completes *)

Lemma create_cache_dirs_returns (env : environment) (opts : afire_options)
    (d : gmap string granule_dict) (geo_prefix : string) (granule_id_list : list string)
    (ps : pstate) :
  forallb (has_geo_time d geo_prefix) granule_id_list = true ->
  (forall p, is_ok (create_dir env p) = true) ->
  exists ps', create_cache_dirs env opts d geo_prefix granule_id_list ps = (Ok tt, ps').
Proof.
  intros Hall Hdir. revert ps Hall.
  induction granule_id_list as [|gid rest IH]; intros ps Hall; [by eexists|].
  cbn [forallb] in Hall. apply andb_true_iff in Hall as [Hgid Hrest].
  cbn [create_cache_dirs]. unfold bind at 1.
  destruct (geo_time_run d geo_prefix gid ps) as [Hfst Hsnd].
  destruct (geo_time d geo_prefix gid ps) as [r ps1]. cbn [fst snd] in *. subst ps1.
  rewrite Hgid in Hfst. unfold has_geo_time in Hgid.
  destruct (d !! gid) as [gd|]; [|done].
  destruct (geo_dt gd !! geo_prefix) as [dt|];
    [|rewrite bool_decide_eq_false_2 in Hgid; [done|by intros [x Hx]]].
  subst r. unfold bind at 1, pcall at 1.
  specialize (Hdir (pjoin (cache_dir opts) dt)).
  destruct (create_dir env (pjoin (cache_dir opts) dt)) as [made|]; [|done].
  unfold bind at 1. destruct made; apply IH, Hrest.
Qed.

Section Completes.
Variables (env : environment) (work_dir_arg : string) (opts : afire_options).

Local Abbreviation geo_prefix := (if i_band opts then "GITCO" else "GMTCO").

(** The inputs were found, the dictionary with the command lines is keyed by
    granule id and holds a start time for every listed granule, the helpers
    that manage the cache and the scratch inputs do not raise, and the
    requested number of processes, if any, is at least 1.  Nothing is asked
    of the collaborators of the workers. *)
Definition run_prepared (d' : gmap string granule_dict) (granule_id_list : list string)
  : Prop :=
  (exists d, get_afire_inputs env = Ok (d, granule_id_list) /\ d ≠ ∅ /\
             construct_cmd_invocations env d = Ok d') /\
  granule_id_list ≠ [] /\
  (forall k gd, d' !! k = Some gd -> granule_id gd = k) /\
  forallb (has_geo_time d' geo_prefix) granule_id_list = true /\
  (forall t, is_ok (clean_cache env (cache_dir opts) (cache_window opts) t) = true) /\
  (forall p, is_ok (create_dir env p) = true) /\
  (forall p, is_ok (cleanup_unaggregated env p) = true) /\
  request_valid opts.

Lemma process_afire_inputs_returns (d' : gmap string granule_dict)
    (granule_id_list : list string) (ps : pstate) :
  run_prepared d' granule_id_list ->
  exists r ps',
    process_afire_inputs env work_dir_arg opts ps = (Ok r, ps') /\
    attempted_runs r = sorted_set granule_id_list.
Proof.
  intros ((d & Hget & Hd & Hcons) & Hids & Hkeyed & Hall & Hclean & Hdir & Hcleanup & Hvalid).
  unfold process_afire_inputs, bind at 1, pcall at 1. rewrite Hget.
  rewrite bool_decide_eq_false_2 by done.
  rewrite bool_decide_eq_false_2 by done.
  cbn [orb]. unfold bind at 1, pcall at 1. rewrite Hcons. cbn [p_fs p_cwd p_trace].
  unfold bind at 1. rewrite log_input_files_run, Hall.
  unfold bind at 1.
  match goal with
  | |- context [(if negb (preserve_cache opts) then ?m else ret tt) ?s] =>
      assert (Hstep : exists ps1,
                (if negb (preserve_cache opts) then m else ret tt) s = (Ok tt, ps1))
  end.
  { destruct (preserve_cache opts); cbn [negb]; [by eexists|].
    destruct granule_id_list as [|gid rest]; [done|].
    cbn [forallb] in Hall. apply andb_true_iff in Hall as [Hgid _].
    unfold bind at 1.
    match goal with
    | |- context [geo_time d' ?pre gid ?s] =>
        destruct (geo_time_run d' pre gid s) as [Hfst Hsnd];
        destruct (geo_time d' pre gid s) as [r ps1]
    end.
    cbn [fst snd] in *. subst ps1. rewrite Hgid in Hfst.
    unfold has_geo_time in Hgid. destruct (d' !! gid) as [gd|]; [|done].
    destruct (geo_dt gd !! geo_prefix) as [dt|];
      [|rewrite bool_decide_eq_false_2 in Hgid; [done|by intros [x Hx]]].
    subst r. unfold pcall. specialize (Hclean dt).
    destruct (clean_cache env (cache_dir opts) (cache_window opts) dt) as [[]|];
      [by eexists|done]. }
  destruct Hstep as (ps1 & ->). unfold bind at 1.
  destruct (create_cache_dirs_returns env opts d' geo_prefix granule_id_list ps1 Hall Hdir)
    as (ps2 & ->).
  unfold bind at 1.
  destruct (dispatch_result_keys_keyed (collaborators env) (cpu_count env)
              (afire_home_opt opts) d' opts ps2 Hvalid Hkeyed)
    as (rc_exe_dict & rc_problem_dict & ps3 & -> & Hexe & Hprob).
  unfold bind at 1.
  assert (Hstep : exists ps4,
            (if docleanup opts
             then pcall (EvCleanup (pjoin work_dir_arg "unaggregated_inputs"))
                    (cleanup_unaggregated env (pjoin work_dir_arg "unaggregated_inputs"))
             else ret tt) ps3 = (Ok tt, ps4)).
  { destruct (docleanup opts); [|by eexists]. unfold pcall.
    specialize (Hcleanup (pjoin work_dir_arg "unaggregated_inputs")).
    destruct (cleanup_unaggregated env _) as [[]|]; [by eexists|done]. }
  destruct Hstep as (ps4 & ->).
  rewrite summarize_runs.
  - by eexists _, _.
  - intros g Hg. rewrite <- !elem_of_dom, Hexe, Hprob, elem_of_dom.
    rewrite forallb_forall in Hall. apply list_elem_of_In, Hall in Hg.
    unfold has_geo_time in Hg. destruct (d' !! g); [by eauto|done].
Qed.

(** X20. Once the inputs are prepared, no fault inside the workers aborts the
    run: whatever their collaborators return or raise, for every granule,
    [process_afire_inputs] returns its four lists, and [attempted_runs] is
    the sorted list of the distinct granule ids (lines 92-123). *)
Theorem worker_faults_do_not_abort_run (d' : gmap string granule_dict)
    (granule_id_list : list string) (ps : pstate) :
  run_prepared d' granule_id_list ->
  exists r ps',
    process_afire_inputs env work_dir_arg opts ps = (Ok r, ps') /\
    attempted_runs r = sorted_set granule_id_list.
Proof. apply process_afire_inputs_returns. Qed.

End Completes.

(** X21. The exit status of [main] does not tell whether a granule crashed: once
    the installation checks pass and the inputs are prepared, [main] returns
    0 whatever the workers' collaborators return or raise (lines 164-179). *)
Theorem main_exit_zero_despite_crashes (env : environment) (args : cli_args)
    (afire_home afire_ancil_path : string) (d' : gmap string granule_dict)
    (granule_id_list : list string) (ps : pstate) :
  check_environment env (parsed_work_dir args) = Ok (afire_home, afire_ancil_path) ->
  run_prepared env (build_options env args afire_home) d' granule_id_list ->
  exists ps', main env args ps = (Ok 0, ps').
Proof.
  intros Hcheck Hprep. unfold main. rewrite Hcheck.
  destruct (process_afire_inputs_returns env (parsed_work_dir args) _ d' granule_id_list
              ps Hprep) as (r & ps' & Hrun & _).
  exists ps'. unfold try_except, bind. by rewrite Hrun.
Qed.

(** Every worker fails: the binary is killed by a signal. *)
Definition demo_environment_crashing : environment :=
  mk_environment
    (fun _ => Ok "/opt/afire")
    (fun p => Ok p)
    (fun p => p)
    (fun _ wd _ => pjoin wd "afire_cache")
    (Ok (demo_dict, ["NPP002"; "NPP001"]))
    (fun d => Ok d)
    (fun _ _ _ => Ok tt)
    (fun p => Ok (Some p))
    (fun _ => Ok tt)
    4%positive
    (fun _ => healthy (-11) 0).

Lemma demo_dict_keyed (k : string) (gd : granule_dict) :
  demo_dict !! k = Some gd -> granule_id gd = k.
Proof.
  unfold demo_dict. intros Hk.
  repeat (apply lookup_insert_Some in Hk as [[<- <-]|[_ Hk]]; [reflexivity|]).
  by apply lookup_singleton_Some in Hk as [<- <-].
Defined.

Lemma demo_run_prepared (opts : afire_options) :
  i_band opts = true -> request_valid opts ->
  run_prepared demo_environment_crashing opts demo_dict ["NPP002"; "NPP001"].
Proof.
  intros Hband Hvalid. unfold run_prepared. rewrite Hband.
  split; [exists demo_dict; split; [reflexivity|split; [exact demo_dict_nonempty|reflexivity]]|].
  split; [discriminate|]. split; [exact demo_dict_keyed|].
  split; [vm_compute; reflexivity|].
  split; [reflexivity|]. split; [reflexivity|]. split; [reflexivity|exact Hvalid].
Defined.

Lemma worker_faults_do_not_abort_run_witness :
  exists r ps',
    process_afire_inputs demo_environment_crashing "/work" demo_options_10 demo_process
      = (Ok r, ps') /\
    attempted_runs r = sorted_set ["NPP002"; "NPP001"].
Proof.
  apply (worker_faults_do_not_abort_run demo_environment_crashing "/work" demo_options_10
           demo_dict).
  apply demo_run_prepared; [reflexivity|exact demo_request_valid].
Defined.

Lemma main_exit_zero_despite_crashes_witness :
  exists ps', main demo_environment_crashing demo_cli demo_process = (Ok 0, ps').
Proof.
  apply (main_exit_zero_despite_crashes demo_environment_crashing demo_cli
           "/opt/afire" "/opt/afire" demo_dict ["NPP002"; "NPP001"]).
  - reflexivity.
  - apply demo_run_prepared; [reflexivity|].
    intros requested Hreq. vm_compute in Hreq. injection Hreq as <-. lia.
Defined.

(** In the crashing environment every granule is reported as crashed, and
    [main] still returns 0. *)
Example crashed_run_lists :
  fst (process_afire_inputs demo_environment_crashing "/work" demo_options_10 demo_process)
    = Ok (mk_runs ["NPP001"; "NPP002"] [] ["NPP001"; "NPP002"] []).
Proof. vm_compute. reflexivity. Qed.

(** ** The dispatcher: what the status dictionaries hold *)

(** The statuses a worker returns: the problem status is 0 or 1, and the
    execution status is 0 or the exit status of the binary. *)
Lemma worker_statuses (o : oracle) (args : task_args) (fs0 : gset string) (cwd0 : string) :
  exists r, fst (afire_submitter o args fs0 cwd0) = Ok r /\
    res_granule_id r = granule_id (arg_granule_dict args) /\
    (res_rc_problem r = 0 \/ res_rc_problem r = 1) /\
    (res_rc_exe r = 0 \/
     exists text, execute_binary_captured_inject_io o = Ok (res_rc_exe r, text)).
Proof.
  destruct (afire_submitter_summary o args fs0 cwd0) as (n & _ & _ & Hres & _).
  eexists. split; [exact Hres|]. cbn [res_granule_id res_rc_exe res_rc_problem].
  split; [reflexivity|]. unfold worker_summary.
  destruct (staging_failed o); [cbn; auto|].
  destruct (ancillary_only (arg_afire_options args)); [cbn; auto|].
  destruct (link_files o); [|cbn; auto].
  destruct (execute_binary_captured_inject_io o) as [[rc text]|]; [|cbn; auto].
  cbn [v_rc_exe v_rc_problem]. split; [|right; eauto].
  destruct (existsb _ _); auto.
Qed.

(** An entry of a status dictionary is the status of a collected result. *)
Lemma collect_results_lookup (result_list : list result) (g : string) :
  (forall rc, fst (collect_results result_list) !! g = Some rc ->
     exists r, r ∈ result_list /\ res_granule_id r = g /\ res_rc_exe r = rc) /\
  (forall p, snd (collect_results result_list) !! g = Some p ->
     exists r, r ∈ result_list /\ res_granule_id r = g /\ res_rc_problem r = p).
Proof.
  unfold collect_results.
  induction result_list as [|r rest IH] using rev_ind.
  - cbn. split; intros x Hx; by rewrite lookup_empty in Hx.
  - rewrite foldl_app. cbn [foldl fst snd]. destruct IH as [IH1 IH2].
    split; intros x Hx; apply lookup_insert_Some in Hx as [[<- <-]|[_ Hx]].
    + exists r. split; [apply elem_of_app; right; left|done].
    + destruct (IH1 x Hx) as (r' & Hin & Hr'). exists r'.
      split; [apply elem_of_app; by left|exact Hr'].
    + exists r. split; [apply elem_of_app; right; left|done].
    + destruct (IH2 x Hx) as (r' & Hin & Hr'). exists r'.
      split; [apply elem_of_app; by left|exact Hr'].
Qed.

Section DispatchStatuses.
Variables (collab : granule_dict -> oracle) (cpu_count_ : positive) (afire_home : string)
          (afire_data_dict : gmap string granule_dict) (opts : afire_options).

(** Every result of the pool is the result of the worker on one task. *)
Lemma pool_map_results (tasks : list task_args) : forall ps : pstate,
  exists rs ps',
    pool_map collab tasks ps = (Ok rs, ps') /\
    forall r, r ∈ rs ->
      exists a, a ∈ tasks /\
        res_granule_id r = granule_id (arg_granule_dict a) /\
        (res_rc_problem r = 0 \/ res_rc_problem r = 1) /\
        (res_rc_exe r = 0 \/
         exists text, execute_binary_captured_inject_io (collab (arg_granule_dict a))
                        = Ok (res_rc_exe r, text)).
Proof.
  induction tasks as [|args rest IH]; intros ps.
  - exists [], ps. split; [reflexivity|]. intros r Hr. by apply elem_of_nil in Hr.
  - assert (Hrun : exists r ps1, run_task collab args ps = (Ok r, ps1) /\
              res_granule_id r = granule_id (arg_granule_dict args) /\
              (res_rc_problem r = 0 \/ res_rc_problem r = 1) /\
              (res_rc_exe r = 0 \/
               exists text,
                 execute_binary_captured_inject_io (collab (arg_granule_dict args))
                   = Ok (res_rc_exe r, text))).
    { unfold run_task.
      destruct (worker_statuses (collab (arg_granule_dict args)) args (p_fs ps) (p_cwd ps))
        as (r & Hr & Hshape).
      destruct (afire_submitter _ args (p_fs ps) (p_cwd ps)) as [res st].
      cbn [fst] in Hr. subst res. by eexists _, _. }
    destruct Hrun as (r & ps1 & Hrun & Hshape).
    destruct (IH ps1) as (rs & ps' & Hmap & Hall).
    exists (r :: rs), ps'. cbn [pool_map]. unfold bind, ret. rewrite Hrun, Hmap.
    split; [reflexivity|].
    intros r' Hr'. apply elem_of_cons in Hr' as [->|Hr'].
    + exists args. split; [left|exact Hshape].
    + destruct (Hall r' Hr') as (a & Ha & Hsh). exists a. split; [by right|exact Hsh].
Qed.

(** X22. With a valid process request and an input dictionary keyed by
    granule id, the dispatcher returns two dictionaries in which every
    problem status is 0 or 1, and every execution status is 0 or the exit
    status that the binary of that very granule returned (lines 399-432). *)
Theorem dispatch_statuses (ps : pstate) :
  request_valid opts ->
  (forall k gd, afire_data_dict !! k = Some gd -> granule_id gd = k) ->
  exists rc_exe_dict rc_problem_dict ps',
    afire_dispatcher collab cpu_count_ afire_home afire_data_dict opts ps
      = (Ok (rc_exe_dict, rc_problem_dict), ps') /\
    (forall g rc, rc_exe_dict !! g = Some rc ->
       exists gd, afire_data_dict !! g = Some gd /\
         (rc = 0 \/
          exists text, execute_binary_captured_inject_io (collab gd) = Ok (rc, text))) /\
    (forall g p, rc_problem_dict !! g = Some p -> p = 0 \/ p = 1).
Proof.
  intros Hvalid Hkeyed. unfold afire_dispatcher.
  assert (Hsize1 : (fst (size_pool (num_cpu opts) (Z.pos cpu_count_)) <? 1)%Z = false).
  { apply Z.ltb_ge. unfold size_pool.
    destruct (num_cpu opts) as [requested|] eqn:Hreq; [|cbn [fst]; lia].
    pose proof (Hvalid requested Hreq).
    destruct (Z.gtb_spec requested (Z.pos cpu_count_)); cbn [fst]; lia. }
  destruct (size_pool (num_cpu opts) (Z.pos cpu_count_))
    as [cpus_to_use warnings] eqn:Hsize.
  cbn [fst snd] in *.
  assert (Hw : forall ps0, exists ps1, warn_all warnings ps0 = (Ok tt, ps1)).
  { clear. induction warnings as [|w ws IH]; intros ps0; [by eexists|].
    cbn [warn_all]. unfold bind, plog. apply IH. }
  unfold bind at 1. destruct (Hw ps) as (ps1 & ->).
  unfold bind at 1, pool_create. rewrite Hsize1. unfold plog.
  cbv beta iota. unfold bind at 1.
  match goal with |- context [pool_map collab ?t ?s] =>
    destruct (pool_map_results t s) as (rs & ps' & Hmap & Hall)
  end.
  rewrite Hmap. unfold ret.
  destruct (collect_results rs) as [rc_exe_dict rc_problem_dict] eqn:Hcol.
  exists rc_exe_dict, rc_problem_dict, ps'. split; [reflexivity|].
  split.
  - intros g rc Hg. destruct (collect_results_lookup rs g) as [Hexe _].
    rewrite Hcol in Hexe. destruct (Hexe rc Hg) as (r & Hr & <- & <-).
    destruct (Hall r Hr) as (a & Ha & Hid & _ & Hrc).
    unfold build_tasks in Ha. apply list_elem_of_omap in Ha as (k & _ & Hlook).
    destruct (afire_data_dict !! k) as [gd|] eqn:Hgd; [|discriminate].
    cbn in Hlook. injection Hlook as <-. cbn [arg_granule_dict] in *.
    exists gd. rewrite Hid, (Hkeyed k gd Hgd). split; [exact Hgd|exact Hrc].
  - intros g p Hg. destruct (collect_results_lookup rs g) as [_ Hprob].
    rewrite Hcol in Hprob. destruct (Hprob p Hg) as (r & Hr & _ & <-).
    by destruct (Hall r Hr) as (a & _ & _ & Hp & _).
Qed.

End DispatchStatuses.

Lemma dispatch_statuses_witness :
  exists rc_exe_dict rc_problem_dict ps',
    afire_dispatcher (fun _ => healthy (-11) 0) 4 "/opt/afire" demo_dict demo_options_10
                     demo_process
      = (Ok (rc_exe_dict, rc_problem_dict), ps') /\
    (forall g rc, rc_exe_dict !! g = Some rc ->
       exists gd, demo_dict !! g = Some gd /\
         (rc = 0 \/
          exists text, execute_binary_captured_inject_io (healthy (-11) 0) = Ok (rc, text))) /\
    (forall g p, rc_problem_dict !! g = Some p -> p = 0 \/ p = 1).
Proof.
  apply (dispatch_statuses (fun _ => healthy (-11) 0) 4 "/opt/afire" demo_dict
           demo_options_10 demo_process).
  - exact demo_request_valid.
  - exact demo_dict_keyed.
Defined.

(** ** The driver: the cache directories *)





(** ** The worker: the scratch tree *)

Definition is_makedirs_event (e : event) : bool :=
  match e with
  | EvMakedirs _ => true
  | _ => false
  end.



Section WorkerTree.
Variables (o : oracle) (args : task_args) (fs0 : gset string) (cwd0 : string).

Local Abbreviation gd := (arg_granule_dict args).
Local Abbreviation opts := (arg_afire_options args).


End WorkerTree.



(** The second run of a granule whose first run failed takes suffix 1. *)
Example rerun_takes_next_suffix :
  List.filter is_makedirs_event
    (trace (snd (afire_submitter (healthy 0 0) demo_args
                   (fs (snd (afire_submitter (healthy (-11) 0) demo_args ∅ "/home")))
                   "/home")))
  = [EvMakedirs "/work/AFIMG_npp_run_1"].
Proof. vm_compute. reflexivity. Qed.
